(** * SmartShelfGUIDemo: protocol decoder, rail model, shelf registry, serial link

    A shallow embedding of the Python sources

      - [src/message.py]         (class [Message])
      - [src/parser.py]          (class [Parser])
      - [src/gui/shelf.py]       (classes [RailWidget], [ShelfWidget])
      - [src/serial_handler.py]  (class [SerialHandler])

    Conventions.  A Python [str] is a [string] whose characters are code
    points below 256 (the wire protocol is ASCII).  A Python [int] is a [Z].
    An exception is a value of [exn]; code that may raise lives in [res].
    Logging calls and Qt signal emissions are recorded, in program order, in
    a trace of [effect]s.  The dictionary [ShelfWidget.rails] is a
    [gmap string RailWidget].  Of Qt the file models what the outcome of
    the sources depends on: the integer parameters that refuse a number
    outside 32 bits, the name a serial port keeps, and the error signal
    of a port that cannot be opened. *)

From Stdlib Require Import ZArith QArith List Ascii String Bool Lia.
From stdpp Require Import base option list gmap strings.

Local Open Scope string_scope.
Local Open Scope Z_scope.

(** ** Exceptions *)

Inductive exn : Type :=
  | ValueError
  | IndexError
  | TypeError
  | KeyError
  | ZeroDivisionError
  | OverflowError.

Inductive res (A : Type) : Type :=
  | Ok (a : A)
  | Raise (e : exn).

Arguments Ok {A} a.
Arguments Raise {A} e.

Definition res_bind {A B : Type} (m : res A) (k : A -> res B) : res B :=
  match m with
  | Ok a => k a
  | Raise e => Raise e
  end.

Notation "'let?' x ':=' m 'in' k" := (res_bind m (fun x => k))
  (at level 10, x name, m at level 100, k at level 200).

(** ** Python built-ins on [str] and [int] *)

Module Py.

Definition code (c : ascii) : Z := Z.of_N (N_of_ascii c).

(** [str.isspace] on one character, for code points below 256. *)
Definition isspace (c : ascii) : bool :=
  let n := code c in
  ((9 <=? n) && (n <=? 13)) || ((28 <=? n) && (n <=? 32))
  || (n =? 133) || (n =? 160).

(** The white space [int()] skips at both ends of its argument: the C
    [isspace] set, and the non-ASCII white space that CPython first turns
    into a blank.  The separators 28..31 are not in it. *)
Definition int_space (c : ascii) : bool :=
  let n := code c in
  ((9 <=? n) && (n <=? 13)) || (n =? 32) || (n =? 133) || (n =? 160).

Fixpoint lstrip_with (sp : ascii -> bool) (s : string) : string :=
  match s with
  | String c s' => if sp c then lstrip_with sp s' else s
  | EmptyString => EmptyString
  end.

(** [rstrip_with sp s] drops the longest suffix of [sp] characters. *)
Fixpoint rstrip_with (sp : ascii -> bool) (s : string) : string :=
  match s with
  | String c s' =>
      match rstrip_with sp s' with
      | EmptyString => if sp c then EmptyString else String c EmptyString
      | r => String c r
      end
  | EmptyString => EmptyString
  end.

(** [s.strip()] *)
Definition strip (s : string) : string :=
  rstrip_with isspace (lstrip_with isspace s).

Definition upper_char (c : ascii) : ascii :=
  let n := code c in
  if (97 <=? n) && (n <=? 122) then ascii_of_N (Z.to_N (n - 32)) else c.

(** [s.upper()].  The sources only compare its result with an ASCII
    literal without a doubled S; on code points 128..255 Python's [upper]
    never produces such a literal, so those characters are left in
    place. *)
Fixpoint upper (s : string) : string :=
  match s with
  | String c s' => String (upper_char c) (upper s')
  | EmptyString => EmptyString
  end.

(** [s.startswith(c)] for a one-character prefix. *)
Definition startswith (s : string) (c : ascii) : bool :=
  match s with
  | String d _ => Ascii.eqb d c
  | EmptyString => false
  end.

(** [s[1:]] *)
Definition tail (s : string) : string :=
  match s with
  | String _ s' => s'
  | EmptyString => EmptyString
  end.

(** [s.split(sep)] for a one-character separator: never empty. *)
Fixpoint split (sep : ascii) (s : string) : list string :=
  match s with
  | String c s' =>
      if Ascii.eqb c sep then EmptyString :: split sep s'
      else match split sep s' with
           | f :: fs => String c f :: fs
           | [] => [String c EmptyString]
           end
  | EmptyString => [EmptyString]
  end.

(** [l[i]] *)
Definition index {A : Type} (l : list A) (i : nat) : res A :=
  match nth_error l i with
  | Some a => Ok a
  | None => Raise IndexError
  end.

(** [until_close s] splits [s] at its first closing bracket: the text
    before it and the text after it, or [None] when [s] has none. *)
Fixpoint until_close (s : string) : option (string * string) :=
  match s with
  | String c s' =>
      if Ascii.eqb c "]" then Some (EmptyString, s')
      else match until_close s' with
           | Some (f, rest) => Some (String c f, rest)
           | None => None
           end
  | EmptyString => None
  end.

(** [re.findall] with the pattern of [parse_message_fields], an opening
    bracket, a group of any characters but the closing bracket, a closing
    bracket: scanning from the left, each opening bracket that has a
    closing one after it starts a field that runs to the first such
    closing bracket, and the scan resumes behind it.  [fuel] bounds the
    number of characters still to scan. *)
Fixpoint findall_fields_from (fuel : nat) (s : string) : list string :=
  match fuel with
  | O => []
  | S fuel' =>
      match s with
      | String c s' =>
          if Ascii.eqb c "[" then
            match until_close s' with
            | Some (f, rest) => f :: findall_fields_from fuel' rest
            | None => []
            end
          else findall_fields_from fuel' s'
      | EmptyString => []
      end
  end.

Definition findall_fields (s : string) : list string :=
  findall_fields_from (String.length s) s.

(** Value of a digit character in [int()]: [0-9], [a-z], [A-Z]. *)
Definition digit_value (c : ascii) : option Z :=
  let n := code c in
  if (48 <=? n) && (n <=? 57) then Some (n - 48)
  else if (97 <=? n) && (n <=? 122) then Some (n - 87)
  else if (65 <=? n) && (n <=? 90) then Some (n - 55)
  else None.

(** The digit part of an integer literal: digits of [base] with single
    underscores between them.  [prev_us] tells that the previous
    character was an underscore; [acc] is the value and [n] the number of
    digits read so far.  The result is the value, the digit count and the
    unread rest, or [None] for a doubled or trailing underscore. *)
Fixpoint scan_digits (base : Z) (prev_us : bool) (acc : Z) (n : nat)
    (s : string) : option (Z * nat * string) :=
  match s with
  | String c s' =>
      if Ascii.eqb c "_" then
        if prev_us then None else scan_digits base true acc n s'
      else
        match digit_value c with
        | Some d =>
            if d <? base then scan_digits base false (acc * base + d) (S n) s'
            else if prev_us then None else Some (acc, n, s)
        | None => if prev_us then None else Some (acc, n, s)
        end
  | EmptyString => if prev_us then None else Some (acc, n, s)
  end.

Fixpoint all_chars (p : ascii -> bool) (s : string) : bool :=
  match s with
  | String c s' => p c && all_chars p s'
  | EmptyString => true
  end.

(** An optional sign. *)
Definition take_sign (s : string) : bool * string :=
  match s with
  | String c s' =>
      if Ascii.eqb c "-" then (true, s')
      else if Ascii.eqb c "+" then (false, s')
      else (false, s)
  | EmptyString => (false, s)
  end.

(** With base 16 an optional [0x] or [0X], after which one underscore is
    allowed. *)
Definition take_prefix (base : Z) (s : string) : string :=
  match s with
  | String c0 (String c1 s') =>
      if (base =? 16) && Ascii.eqb c0 "0"
         && (Ascii.eqb c1 "x" || Ascii.eqb c1 "X")
      then match s' with
           | String c2 s'' => if Ascii.eqb c2 "_" then s'' else s'
           | EmptyString => s'
           end
      else s
  | _ => s
  end.

(** [sys.get_int_max_str_digits()]: CPython refuses a decimal literal of
    more digits.  Bases that are powers of two have no limit. *)
Definition int_max_str_digits : nat := 4300.

(** [int(s, base)] for [base] 10 or 16. *)
Definition int (base : Z) (s : string) : res Z :=
  let s0 := lstrip_with int_space s in
  let '(neg, s1) := take_sign s0 in
  let s2 := take_prefix base s1 in
  if startswith s2 "_" then Raise ValueError
  else
    match scan_digits base false 0 0 s2 with
    | Some (v, n, rest) =>
        if (n =? 0)%nat then Raise ValueError
        else if negb (all_chars int_space rest) then Raise ValueError
        else if (base =? 10) && (int_max_str_digits <? n)%nat
             then Raise ValueError
        else Ok (if neg then - v else v)
    | None => Raise ValueError
    end.

Definition hex_digit (d : Z) : ascii :=
  if d <? 10 then ascii_of_N (Z.to_N (48 + d))
  else ascii_of_N (Z.to_N (55 + d)).

(** Upper-case hexadecimal digits of [v >= 0], most significant first,
    put in front of [acc]. *)
Fixpoint hex_digits (fuel : nat) (v : Z) (acc : string) : string :=
  match fuel with
  | O => acc
  | S fuel' =>
      let acc' := String (hex_digit (v mod 16)) acc in
      if v / 16 =? 0 then acc' else hex_digits fuel' (v / 16) acc'
  end.

(** The format [{v:X}] for [v >= 0]. *)
Definition hex (v : Z) : string :=
  hex_digits (S (Z.to_nat (Z.log2 v))) v EmptyString.

Fixpoint zeros (n : nat) : string :=
  match n with
  | O => EmptyString
  | S n' => String "0" (zeros n')
  end.

(** Zero fill on the left up to [width] characters. *)
Definition zfill (width : nat) (s : string) : string :=
  zeros (width - String.length s) ++ s.

(** The format [{v:04X}]: a minimum width of four, the sign counted
    in it. *)
Definition format_04X (v : Z) : string :=
  if v <? 0 then String "-" (zfill 3 (hex (- v))) else zfill 4 (hex v).

(** [a // b] *)
Definition floordiv (a b : Z) : res Z :=
  if b =? 0 then Raise ZeroDivisionError else Ok (a / b).

(** Binary64 has 53 significant bits. *)
Definition float_prec : Z := 53.

(** [float(n)] for [n >= 0], as the integer the float equals: round to
    nearest, ties to even, on 53 bits; [OverflowError] from [2^1024]. *)
Definition float_of_nonneg (n : Z) : res Z :=
  let k := Z.log2 n + 1 - float_prec in
  if k <=? 0 then Ok n
  else
    let q := Z.shiftr n k in
    let r := n - Z.shiftl q k in
    let half := Z.shiftl 1 (k - 1) in
    let q' := if (half <? r) || ((r =? half) && Z.odd q) then q + 1 else q in
    let f := Z.shiftl q' k in
    if Z.shiftl 1 1024 <=? f then Raise OverflowError else Ok f.

(** [int(0.25 * n)]: [n] goes to float, the product with 0.25 is exact,
    and [int] truncates toward zero. *)
Definition int_quarter (n : Z) : res Z :=
  let? f := float_of_nonneg (Z.abs n) in
  Ok (Z.sgn n * (f / 4)).

(** The line feed. *)
Definition newline : string := String (ascii_of_N 10) EmptyString.

(** [len(s.encode())]: UTF-8 takes one byte below 128 and two from there
    up to 255. *)
Fixpoint encoded_length (s : string) : Z :=
  match s with
  | String c s' => (if code c <? 128 then 1 else 2) + encoded_length s'
  | EmptyString => 0
  end.

(** [[f(x) for x in l]] where [f] may raise. *)
Fixpoint comprehension {A B : Type} (f : A -> res B) (l : list A)
    : res (list B) :=
  match l with
  | [] => Ok []
  | x :: l' =>
      let? y := f x in
      let? ys := comprehension f l' in
      Ok (y :: ys)
  end.

(** [min(max(n, lo), hi)] *)
Definition clamp (n lo hi : Z) : Z := Z.min (Z.max n lo) hi.

End Py.

(** ** [src/message.py] *)

Inductive MessageType : Type :=
  | DISTANCE
  | BATTERY
  | DISCONNECTED
  | OTHER.

Module Message.

Record t : Type := Build {
  msg_type : MessageType;
  content : string;
  esl_id : option string;
  data : option Z
}.

(** [Message._convert_esl_id]: the argument is [None] when the caller
    gave no ID; [int(None, 16)] raises [TypeError], an unreadable string
    [ValueError], and both are caught. *)
Definition _convert_esl_id (esl_id : option string) : option string :=
  let attempt :=
    match esl_id with
    | Some s => let? v := Py.int 16 s in Ok (Py.format_04X v)
    | None => Raise TypeError
    end in
  match attempt with
  | Ok id => Some id
  | Raise _ => None
  end.

(** [Message.__init__] *)
Definition __init__ (msg_type : MessageType) (content : string)
    (esl_id : option string) (data : option Z) : t :=
  {| msg_type := msg_type;
     content := content;
     esl_id := _convert_esl_id esl_id;
     data := data |}.

End Message.

(** ** [src/parser.py] *)

Module Parser.

(** The body of the [try] block of [Parser.parse_message_fields]. *)
Definition parse_message_fields_try (msg : string) : res Message.t :=
  let fields := Py.findall_fields (Py.tail msg) in
  let? field0 := Py.index fields 0 in
  let first_field := Py.split ":" field0 in
  let? key := Py.index first_field 0 in
  if String.eqb (Py.upper key) "ESL_ID" then
    let? value := Py.index first_field 1 in
    let esl_id := Py.strip value in
    let? field1 := Py.index fields 1 in
    let second_field := Py.split ":" field1 in
    let? key2 := Py.index second_field 0 in
    let kind := Py.upper (Py.strip key2) in
    if String.eqb kind "DISTANCE" then
      let? payload := Py.index second_field 1 in
      let? d := Py.int 10 (Py.strip payload) in
      Ok (Message.__init__ DISTANCE msg (Some esl_id) (Some d))
    else if String.eqb kind "BATTERY" then
      let? payload := Py.index second_field 1 in
      let? d := Py.int 10 (Py.strip payload) in
      Ok (Message.__init__ BATTERY msg (Some esl_id) (Some d))
    else if String.eqb kind "TAG DISCONNECTED" then
      Ok (Message.__init__ DISCONNECTED msg (Some esl_id) None)
    else
      Ok (Message.__init__ OTHER msg None None)
  else
    Ok (Message.__init__ OTHER msg None None).

(** [Parser.parse_message_fields]: any exception of the body is logged
    and turned into [None]. *)
Definition parse_message_fields (msg : string) : option Message.t :=
  match parse_message_fields_try msg with
  | Ok m => Some m
  | Raise _ => None
  end.

(** [Parser.parse_message]: the value handed to [message_parsed.emit]. *)
Definition parse_message (message : string) : option Message.t :=
  let parsed_message := Py.strip message in
  if Py.startswith parsed_message "#" then
    parse_message_fields parsed_message
  else
    Some (Message.__init__ OTHER message None None).

End Parser.

(** ** Effects: logging, Qt signals, mutable state

    [Log lv text] records a call [logging.<lv>(text)]; [text] is the format
    string as it stands in the source, its placeholders not filled in.
    [Emit sg] records [<signal>.emit(payload)]. *)

Inductive level : Type := DEBUG | INFO | WARNING | ERROR.

Inductive signal : Type :=
  | send_command (command : string)
  | message_sent (message : string)
  | serial_port_closed (text : string)
  | serial_port_opened (text : string)
  | serial_port_error (text : string).

Inductive effect : Type :=
  | Log (lv : level) (text : string)
  | Emit (sg : signal).

(** A method running on a mutable object of type [S]: it leaves a trace and
    a final object state, and returns or raises.  The state reached when an
    exception is raised is kept, as the mutations made so far are in
    Python. *)
Definition M (S A : Type) : Type := S -> list effect * S * res A.

Definition ret {S A : Type} (a : A) : M S A := fun s => ([], s, Ok a).

Definition raise {S A : Type} (e : exn) : M S A := fun s => ([], s, Raise e).

Definition bind {S A B : Type} (m : M S A) (k : A -> M S B) : M S B :=
  fun s =>
    match m s with
    | (tr, s1, Ok a) =>
        match k a s1 with
        | (tr', s2, r) => ((tr ++ tr')%list, s2, r)
        end
    | (tr, s1, Raise e) => (tr, s1, Raise e)
    end.

Notation "'let!' x ':=' m 'in' k" := (bind m (fun x => k))
  (at level 10, x name, m at level 100, k at level 200).
Notation "m ';;' k" := (bind m (fun _ => k))
  (at level 100, k at level 200, right associativity).

Definition log {S : Type} (lv : level) (text : string) : M S unit :=
  fun s => ([Log lv text], s, Ok tt).

Definition emit {S : Type} (sg : signal) : M S unit :=
  fun s => ([Emit sg], s, Ok tt).

Definition get {S : Type} : M S S := fun s => ([], s, Ok s).

Definition modify {S : Type} (f : S -> S) : M S unit :=
  fun s => ([], f s, Ok tt).

Definition lift {S A : Type} (r : res A) : M S A := fun s => ([], s, r).

(** [try: m  except ValueError: handler] *)
Definition except_ValueError {S : Type} (m : M S unit) (handler : M S unit)
    : M S unit :=
  fun s =>
    match m s with
    | (tr, s1, Raise ValueError) =>
        match handler s1 with
        | (tr', s2, r) => ((tr ++ tr')%list, s2, r)
        end
    | out => out
    end.

(** ** What the sources rely on in Qt

    The PySide6 calls whose outcome the sources depend on. *)

Module Qt.

(** A Python [int] handed to a parameter declared [int] in C++: outside
    the range of a 32-bit signed integer the binding raises
    [OverflowError]. *)
Definition c_int (v : Z) : res Z :=
  if (-2147483648 <=? v) && (v <=? 2147483647) then Ok v
  else Raise OverflowError.

(** [QString::mid(n)]: the text from position [n] on. *)
Fixpoint mid (n : nat) (s : string) : string :=
  match n, s with
  | S n', String _ s' => mid n' s'
  | _, _ => s
  end.

(** How [QSerialPort] keeps the name it is given, on the systems where
    serial devices live under [/dev]: [setPortName] turns the name into
    the location of the device, [portName] turns the location back into
    the short name. *)
Definition portNameToSystemLocation (source : string) : string :=
  if String.prefix "/" source || String.prefix "./" source
     || String.prefix "../" source
  then source
  else "/dev/" ++ source.

Definition portNameFromSystemLocation (source : string) : string :=
  if String.prefix "/dev/" source then mid 5 source else source.

End Qt.

(** ** [src/gui/shelf.py] *)

Module RailWidget.

(** The attributes set by [__init__], and the two pieces of widget state
    the update methods write: [item_count] is the [n_items] last handed
    to [progress_bar.setValue] and printed before the slash in
    [item_count_button] ([None] while the button still shows the hash
    sign of [_setup_ui]); [color] is the text colour last put in the
    button's style sheet ([None] before the first
    [update_connection_status]). *)
Record t : Type := Build {
  esl_id : string;
  mac_address : string;
  rail_empty_distance : Z;
  rail_full_distance : Z;
  item_length : Z;
  tolerance : Z;
  max_items : Z;
  image_path : string;
  item_count : option Z;
  color : option string
}.

(** [RailWidget._setup_ui], as far as it can fail and as far as the
    update methods see its widgets: [progress_bar.setRange(0,
    self.max_items)] takes C integers, the button starts with the hash
    sign for a count and without a colour of its own. *)
Definition _setup_ui (self : t) : res t :=
  let? _ := Qt.c_int (max_items self) in
  Ok {| esl_id := esl_id self;
        mac_address := mac_address self;
        rail_empty_distance := rail_empty_distance self;
        rail_full_distance := rail_full_distance self;
        item_length := item_length self;
        tolerance := tolerance self;
        max_items := max_items self;
        image_path := image_path self;
        item_count := None;
        color := None |}.

(** [RailWidget.__init__].  The calls [_setup_layout] and
    [_setup_signals_qt] that end it arrange the widgets and connect the
    two buttons; they change no attribute and raise nothing. *)
Definition __init__ (rail_empty_distance rail_full_distance item_length : Z)
    (esl_id mac_address image_path : string) : res t :=
  let? tolerance := Py.int_quarter item_length in
  let? max_items :=
    Py.floordiv (rail_empty_distance - rail_full_distance) item_length in
  _setup_ui {| esl_id := esl_id;
               mac_address := mac_address;
               rail_empty_distance := rail_empty_distance;
               rail_full_distance := rail_full_distance;
               item_length := item_length;
               tolerance := tolerance;
               max_items := max_items;
               image_path := image_path;
               item_count := None;
               color := None |}.

Definition set_item_count (n : Z) (self : t) : t :=
  {| esl_id := esl_id self;
     mac_address := mac_address self;
     rail_empty_distance := rail_empty_distance self;
     rail_full_distance := rail_full_distance self;
     item_length := item_length self;
     tolerance := tolerance self;
     max_items := max_items self;
     image_path := image_path self;
     item_count := Some n;
     color := color self |}.

Definition set_color (c : string) (self : t) : t :=
  {| esl_id := esl_id self;
     mac_address := mac_address self;
     rail_empty_distance := rail_empty_distance self;
     rail_full_distance := rail_full_distance self;
     item_length := item_length self;
     tolerance := tolerance self;
     max_items := max_items self;
     image_path := image_path self;
     item_count := item_count self;
     color := Some c |}.

(** The [n_items] of [RailWidget.update_distance]. *)
Definition n_items (self : t) (distance : Z) : res Z :=
  let? n :=
    Py.floordiv (rail_empty_distance self - distance + tolerance self)
                (item_length self) in
  Ok (Py.clamp n 0 (max_items self)).

(** [RailWidget.update_distance] *)
Definition update_distance (distance : Z) : M t unit :=
  let! self := get in
  let! n := lift (n_items self distance) in
  modify (set_item_count n).

(** [RailWidget.update_connection_status] *)
Definition update_connection_status (connected : bool) : M t unit :=
  let color := if connected then "#FFFFFF" else "#D32F2F" in
  modify (set_color color).

(** What the style sheet says about the link to the tag. *)
Definition connected (self : t) : option bool :=
  match color self with
  | Some c => Some (String.eqb c "#FFFFFF")
  | None => None
  end.

(** [RailWidget.on_measure_button_clicked] *)
Definition on_measure_button_clicked : M t unit :=
  let! self := get in
  emit (send_command ("esl_c force_measure " ++ esl_id self)).

(** [RailWidget.on_item_count_label_clicked] *)
Definition on_item_count_label_clicked : M t unit :=
  let! self := get in
  emit (send_command ("esl_c acl connect_addr 1 " ++ mac_address self)).

End RailWidget.

Module ShelfWidget.

Definition TOP_ROW_ELEMENTS : nat := 7.
Definition BOTTOM_ROW_ELEMENTS : nat := 4.
Definition TOTAL_ELEMENTS : nat := TOP_ROW_ELEMENTS + BOTTOM_ROW_ELEMENTS.

(** The shelf section of the configuration: six parallel sequences.  A
    missing key reads as the empty list.  The three numeric sequences
    hold integers, on which the [int(length)] of [__init__] changes
    nothing. *)
Record config : Type := Config {
  ids : list string;
  mac_addresses : list string;
  rail_empty_distance : list Z;
  rail_full_distance : list Z;
  item_length : list Z;
  image_path : list string
}.

(** The one attribute the update path uses: the dictionary [rails]. *)
Record t : Type := Build {
  rails : gmap string RailWidget.t
}.

Definition set_rails (f : gmap string RailWidget.t -> gmap string RailWidget.t)
    (self : t) : t :=
  {| rails := f (rails self) |}.

(** One of the two [for index, id in enumerate(...)] loops of
    [setup_ui]; the bottom row reads the sequences at
    [index + TOP_ROW_ELEMENTS]. *)
Fixpoint add_rails (rails_empty_distance rails_full_distance items_length : list Z)
    (mac_addresses item_image_paths : list string)
    (offset index : nat) (esl_ids : list string) : M t unit :=
  match esl_ids with
  | [] => ret tt
  | id :: esl_ids' =>
      let! rail :=
        lift (let? e := Py.index rails_empty_distance (index + offset) in
              let? f := Py.index rails_full_distance (index + offset) in
              let? l := Py.index items_length (index + offset) in
              let? m := Py.index mac_addresses (index + offset) in
              let? i := Py.index item_image_paths (index + offset) in
              RailWidget.__init__ e f l id m i) in
      modify (set_rails (insert id rail)) ;;
      add_rails rails_empty_distance rails_full_distance items_length
                mac_addresses item_image_paths offset (S index) esl_ids'
  end.

(** [ShelfWidget.setup_ui] *)
Definition setup_ui (esl_ids mac_addresses : list string)
    (rails_empty_distance rails_full_distance items_length : list Z)
    (item_image_paths : list string) : M t unit :=
  modify (set_rails (fun _ => ∅)) ;;
  add_rails rails_empty_distance rails_full_distance items_length
            mac_addresses item_image_paths
            0 0 (take TOP_ROW_ELEMENTS esl_ids) ;;
  add_rails rails_empty_distance rails_full_distance items_length
            mac_addresses item_image_paths
            TOP_ROW_ELEMENTS 0
            (drop TOP_ROW_ELEMENTS (take TOTAL_ELEMENTS esl_ids)).

(** The ID conversion of [__init__]: the format [{int(id, 16):04X}]. *)
Definition canonical (id : string) : res string :=
  let? v := Py.int 16 id in Ok (Py.format_04X v).

(** The statements of [ShelfWidget.__init__], run on the object under
    construction. *)
Definition init_body (config : config) : M t unit :=
  let esl_ids := ids config in
  (if negb (length esl_ids =? TOTAL_ELEMENTS)%nat
   then log WARNING "Expected 11 ESL IDs, got {len(esl_ids)}."
   else ret tt) ;;
  let! esl_ids := lift (Py.comprehension canonical esl_ids) in
  setup_ui esl_ids (mac_addresses config)
           (rail_empty_distance config) (rail_full_distance config)
           (item_length config) (image_path config).

(** [ShelfWidget.__init__]: the trace, and the new object or the
    exception that ends the construction. *)
Definition __init__ (config : config) : list effect * res t :=
  match init_body config {| rails := ∅ |} with
  | (tr, self, Ok _) => (tr, Ok self)
  | (tr, _, Raise e) => (tr, Raise e)
  end.

(** [ShelfWidget.is_rail_valid] *)
Definition is_rail_valid (self : t) (esl_id : string) : bool :=
  bool_decide (is_Some (rails self !! esl_id)).

(** A method of the rail [self.rails[esl_id]], run in place. *)
Definition on_rail {A : Type} (esl_id : string) (m : M RailWidget.t A)
    : M t A :=
  fun self =>
    match rails self !! esl_id with
    | Some rail =>
        match m rail with
        | (tr, rail', r) => (tr, set_rails (insert esl_id rail') self, r)
        end
    | None => ([], self, Raise KeyError)
    end.

(** [ShelfWidget.update_shelf].  A [DISTANCE] message without [data]
    makes the subtraction in [update_distance] raise [TypeError]. *)
Definition update_shelf (message : Message.t) : M t unit :=
  let! self := get in
  match Message.esl_id message with
  | Some esl_id =>
      if is_rail_valid self esl_id then
        match Message.msg_type message with
        | DISTANCE =>
            on_rail esl_id (RailWidget.update_connection_status true) ;;
            let! distance :=
              lift (match Message.data message with
                    | Some d => Ok d
                    | None => Raise TypeError
                    end) in
            on_rail esl_id (RailWidget.update_distance distance)
        | DISCONNECTED =>
            on_rail esl_id (RailWidget.update_connection_status false)
        | BATTERY =>
            on_rail esl_id (RailWidget.update_connection_status true)
        | OTHER => ret tt
        end
      else
        log DEBUG "ESL ID {message.esl_id} not on the shelf, ignoring."
  | None => ret tt
  end.

End ShelfWidget.

(** ** [src/serial_handler.py] *)

Module SerialHandler.

Inductive DataBits : Type := Data5 | Data6 | Data7 | Data8.
Inductive Parity : Type :=
  NoParity | EvenParity | OddParity | MarkParity | SpaceParity.
Inductive StopBits : Type := OneStop | OneAndHalfStop | TwoStop.
Inductive FlowControl : Type :=
  NoFlowControl | HardwareControl | SoftwareControl.

(** The [QSerialPort] held in [self.serial]: its settings, whether it is
    open, and the data it has accepted for sending, oldest first.  Of the
    name Qt keeps the location of the device. *)
Record t : Type := Build {
  systemLocation : string;
  baudRate : Z;
  dataBits : DataBits;
  parity : Parity;
  stopBits : StopBits;
  flowControl : FlowControl;
  isOpen : bool;
  written : list string
}.

(** A fresh [QSerialPort()]. *)
Definition QSerialPort : t :=
  {| systemLocation := "";
     baudRate := 9600;
     dataBits := Data8;
     parity := NoParity;
     stopBits := OneStop;
     flowControl := NoFlowControl;
     isOpen := false;
     written := [] |}.

(** [QSerialPort.portName] *)
Definition portName (p : t) : string :=
  Qt.portNameFromSystemLocation (systemLocation p).

(** [QSerialPort.setPortName] *)
Definition setPortName (v : string) (p : t) : t :=
  Build (Qt.portNameToSystemLocation v) (baudRate p) (dataBits p) (parity p)
        (stopBits p) (flowControl p) (isOpen p) (written p).
(** [QSerialPort.setBaudRate], once the binding has accepted the
    number. *)
Definition setBaudRate (v : Z) (p : t) : t :=
  Build (systemLocation p) v (dataBits p) (parity p) (stopBits p)
        (flowControl p) (isOpen p) (written p).
Definition setDataBits (v : DataBits) (p : t) : t :=
  Build (systemLocation p) (baudRate p) v (parity p) (stopBits p)
        (flowControl p) (isOpen p) (written p).
Definition setParity (v : Parity) (p : t) : t :=
  Build (systemLocation p) (baudRate p) (dataBits p) v (stopBits p)
        (flowControl p) (isOpen p) (written p).
Definition setStopBits (v : StopBits) (p : t) : t :=
  Build (systemLocation p) (baudRate p) (dataBits p) (parity p) v
        (flowControl p) (isOpen p) (written p).
Definition setFlowControl (v : FlowControl) (p : t) : t :=
  Build (systemLocation p) (baudRate p) (dataBits p) (parity p) (stopBits p)
        v (isOpen p) (written p).
Definition setOpen (v : bool) (p : t) : t :=
  Build (systemLocation p) (baudRate p) (dataBits p) (parity p) (stopBits p)
        (flowControl p) v (written p).
Definition accept (data : string) (p : t) : t :=
  Build (systemLocation p) (baudRate p) (dataBits p) (parity p) (stopBits p)
        (flowControl p) (isOpen p) (written p ++ [data])%list.

(** The serial section of the configuration; [None] is a missing key. *)
Record config : Type := Config {
  port : option string;
  baudrate : option Z;
  data_bits : option Z;
  parity_name : option string;
  stop_bits : option Q;
  flow_control : option string
}.

Definition DEFAULT_BAUDRATE : Z := 115200.
Definition DEFAULT_DATA_BITS : Z := 8.
Definition DEFAULT_PARITY : string := "None".
Definition DEFAULT_STOP_BITS : Q := 1%Q.
Definition DEFAULT_FLOW_CONTROL : string := "RTS/CTS".

(** [QSerialPort.SerialPortError]: [handle_error] tells [NoError] from
    every other code and treats those alike. *)
Inductive SerialPortError : Type := NoError | OtherError.

(** [SerialHandler.handle_error], the slot of [errorOccurred].  The text
    of the error is the operating system's; the payload of the signal is
    recorded as the log lines are, placeholder not filled in. *)
Definition handle_error (error : SerialPortError) : M t unit :=
  match error with
  | NoError => ret tt
  | OtherError =>
      log ERROR "Serial port error: {self.serial.errorString()}" ;;
      emit (serial_port_error
              "Serial port error: {self.serial.errorString()}")
  end.

(** [self.serial.open(QSerialPort.ReadWrite)] on a port that is not open.
    Qt first clears the error of the port and then asks the operating
    system for the device; a refusal becomes the error of the port.  Both
    steps emit [errorOccurred], which [__init__] has connected to
    [handle_error] before the first call.  Whether the operating system
    lets the device be opened is the environment's choice, [os_opens]. *)
Definition open (os_opens : string -> bool) : M t bool :=
  let! serial := get in
  handle_error NoError ;;
  if os_opens (systemLocation serial) then
    modify (setOpen true) ;;
    ret true
  else
    handle_error OtherError ;;
    ret false.

(** [SerialHandler.open_serial] *)
Definition open_serial (os_opens : string -> bool) : M t unit :=
  let! serial := get in
  if negb (isOpen serial) then
    let! opened := open os_opens in
    if opened then
      log DEBUG "Serial port {self.serial.portName()} opened." ;;
      emit (serial_port_opened
              ("Serial port " ++ portName serial ++ " opened."))
    else
      log ERROR "Failed to open serial port {self.serial.portName()}: {self.serial.errorString()}"
  else
    log WARNING "Serial port {self.serial.portName()} is already open.".

(** [SerialHandler._set_port_name]: [not port_name] holds for a missing
    and for an empty name. *)
Definition _set_port_name (port_name : option string) : M t unit :=
  match port_name with
  | None => raise ValueError
  | Some EmptyString => raise ValueError
  | Some name =>
      log DEBUG "- Name[{port_name}]" ;;
      modify (setPortName name)
  end.

(** [SerialHandler._set_baudrate]: [setBaudRate] takes a C integer. *)
Definition _set_baudrate (baudrate : Z) : M t unit :=
  log DEBUG "- Baudrate[{baudrate}]" ;;
  let! baudrate := lift (Qt.c_int baudrate) in
  modify (setBaudRate baudrate).

(** [SerialHandler._set_data_bits] *)
Definition _set_data_bits (data_bits : Z) : M t unit :=
  log DEBUG "- DataBits[{data_bits}]" ;;
  let data_bits :=
    if data_bits =? 5 then Data5
    else if data_bits =? 6 then Data6
    else if data_bits =? 7 then Data7
    else if data_bits =? 8 then Data8
    else Data8 in
  modify (setDataBits data_bits).

(** [SerialHandler._set_parity].  The last case is [pass]: the name
    itself then goes to [setParity], which takes the enumeration only
    and refuses a string with [TypeError]. *)
Definition _set_parity (parity : string) : M t unit :=
  log DEBUG "- Parity[{parity}]" ;;
  if String.eqb parity "None" then modify (setParity NoParity)
  else if String.eqb parity "Even" then modify (setParity EvenParity)
  else if String.eqb parity "Odd" then modify (setParity OddParity)
  else if String.eqb parity "Mark" then modify (setParity MarkParity)
  else if String.eqb parity "Space" then modify (setParity SpaceParity)
  else raise TypeError.

(** [SerialHandler._set_stop_bits]: the literal patterns compare
    numbers, so [1.0] matches [1]. *)
Definition _set_stop_bits (stop_bits : Q) : M t unit :=
  log DEBUG "- StopBits[{stop_bits}]" ;;
  let stop_bits :=
    if Qeq_bool stop_bits 1 then OneStop
    else if Qeq_bool stop_bits (3 # 2) then OneAndHalfStop
    else if Qeq_bool stop_bits 2 then TwoStop
    else OneStop in
  modify (setStopBits stop_bits).

(** [SerialHandler._set_flow_control] *)
Definition _set_flow_control (flow_control : string) : M t unit :=
  log DEBUG "- FlowControl[{flow_control}]" ;;
  let flow_control :=
    if String.eqb flow_control "None" then NoFlowControl
    else if String.eqb flow_control "RTS/CTS" then HardwareControl
    else if String.eqb flow_control "XON/XOFF" then SoftwareControl
    else NoFlowControl in
  modify (setFlowControl flow_control).

(** [config.get(key, default)] *)
Definition get_or {A : Type} (v : option A) (default : A) : A :=
  match v with
  | Some a => a
  | None => default
  end.

(** [SerialHandler.configure_serial] *)
Definition configure_serial (config : config) : M t unit :=
  log DEBUG "Serial port configuration:" ;;
  except_ValueError
    (_set_port_name (port config) ;;
     _set_baudrate (get_or (baudrate config) DEFAULT_BAUDRATE) ;;
     _set_data_bits (get_or (data_bits config) DEFAULT_DATA_BITS) ;;
     _set_parity (get_or (parity_name config) DEFAULT_PARITY) ;;
     _set_stop_bits (get_or (stop_bits config) DEFAULT_STOP_BITS) ;;
     _set_flow_control (get_or (flow_control config) DEFAULT_FLOW_CONTROL))
    (log ERROR "Configuration error: {e}" ;;
     raise ValueError) ;;
  log DEBUG "Serial port configured successfully.".

(** [SerialHandler.close_serial] *)
Definition close_serial : M t unit :=
  let! serial := get in
  if isOpen serial then
    log DEBUG "Closing {self.serial.portName()}." ;;
    modify (setOpen false) ;;
    emit (serial_port_closed (portName serial ++ " closed.")) ;;
    log DEBUG "{self.serial.portName()} closed."
  else
    log WARNING "Attempted to close a serial port that is not open.".

(** [SerialHandler.update_serial_config] *)
Definition update_serial_config (os_opens : string -> bool)
    (new_config : config) : M t unit :=
  let! serial := get in
  let is_open := isOpen serial in
  (if is_open then close_serial else ret tt) ;;
  except_ValueError
    (configure_serial new_config ;;
     open_serial os_opens)
    (log ERROR "Failed to update serial port configuration: {e}").

(** [SerialHandler.__init__], run on a fresh [QSerialPort()]. *)
Definition __init__ (os_opens : string -> bool) (serial_config : config)
    : list effect * t * res unit :=
  (configure_serial serial_config ;;
   open_serial os_opens) QSerialPort.

(** [self.serial.write(data)]: the count of bytes taken, or [-1].
    Whether the device takes the data is the environment's choice,
    [device_takes]. *)
Definition write (device_takes : bool) (data : string) : M t Z :=
  if device_takes then
    modify (accept data) ;;
    ret (Py.encoded_length data)
  else ret (-1).

(** [SerialHandler.send_message] *)
Definition send_message (device_takes : bool) (message : string)
    : M t unit :=
  let! serial := get in
  if negb (isOpen serial) then
    log ERROR "Cannot send message. Serial Port is closed."
  else
    let message_to_send := message ++ Py.newline in
    let! bytes_written := write device_takes message_to_send in
    if bytes_written =? -1 then
      log ERROR "Failed to write data: {self.serial.errorString()}"
    else
      log INFO "{message}" ;;
      emit (message_sent message).

End SerialHandler.

(** ** Vocabulary of the statements *)

(** The event the specification calls Unclassified: type [OTHER], the text,
    no ID and no data. *)
Definition Unclassified (text : string) : Message.t :=
  Message.Build OTHER text None None.

(** The line, white space stripped, starts with the sentinel. *)
Definition sentinel (line : string) : bool :=
  Py.startswith (Py.strip line) "#".

(** The bracketed fields the decoder finds in a line. *)
Definition fields_of (line : string) : list string :=
  Py.findall_fields (Py.tail (Py.strip line)).

(** The payload of a [DISTANCE] or [BATTERY] field is missing or is not an
    integer literal. *)
Definition bad_payload (payloads : list string) : Prop :=
  match payloads with
  | [] => True
  | p :: _ => exists e, Py.int 10 (Py.strip p) = Raise e
  end.

(** Four characters, each one of [0-9A-F]. *)
Definition upper_hex_char (c : ascii) : bool :=
  let n := Py.code c in
  ((48 <=? n) && (n <=? 57)) || ((65 <=? n) && (n <=? 70)).

Definition four_upper_hex (s : string) : bool :=
  (String.length s =? 4)%nat && Py.all_chars upper_hex_char s.

(** The calibration of a rail: what [__init__] stores and no update
    method writes. *)
Definition calibration (r : RailWidget.t) : Z * Z * Z * Z * Z :=
  (RailWidget.rail_empty_distance r, RailWidget.rail_full_distance r,
   RailWidget.item_length r, RailWidget.tolerance r, RailWidget.max_items r).


(** The number fits a 32-bit signed integer, as Qt's [int] parameters
    require. *)
Definition fits_c_int (v : Z) : Prop := -2147483648 <= v <= 2147483647.

(** Every log line of the trace is a debug line. *)
Definition only_debug (tr : list effect) : bool :=
  forallb (fun ef => match ef with
                     | Log DEBUG _ => true
                     | Log _ _ => false
                     | Emit _ => true
                     end) tr.

(** The name [QSerialPort.portName] reports for a port set up under
    [name]: a leading [/dev/] is gone. *)
Definition short_name (name : string) : string :=
  if String.prefix "/dev/" name then Qt.mid 5 name else name.



(** [p] holds at the [n] integers from [v] upward. *)
Fixpoint holds_from (p : Z -> bool) (n : nat) (v : Z) : bool :=
  match n with
  | O => true
  | S n' => p v && holds_from p n' (v + 1)
  end.

(** No character of [s] is [x]. *)
Definition lacks (x : ascii) (s : string) : bool :=
  Py.all_chars (fun c => negb (Ascii.eqb c x)) s.

(** The fields, each between brackets, one after the other. *)
Fixpoint bracketed (fields : list string) : string :=
  match fields with
  | [] => EmptyString
  | f :: fields' => String "[" (f ++ String "]" (bracketed fields'))
  end.

(** The upper-case hexadecimal text of a list of digit values, most
    significant first, and the number it denotes after [acc]. *)
Fixpoint hex_string (ds : list Z) : string :=
  match ds with
  | [] => EmptyString
  | d :: ds' => String (Py.hex_digit d) (hex_string ds')
  end.

Fixpoint digits_value (acc : Z) (ds : list Z) : Z :=
  match ds with
  | [] => acc
  | d :: ds' => digits_value (acc * 16 + d) ds'
  end.

(** What identifies a rail and never changes after construction: its ID,
    MAC address, calibration and image. *)
Definition static_of (r : RailWidget.t)
    : string * string * (Z * Z * Z * Z * Z) * string :=
  (RailWidget.esl_id r, RailWidget.mac_address r, calibration r,
   RailWidget.image_path r).

(** [self'] has the rails of [self] under the same keys, each with its
    identity and calibration unchanged, and every rail other than the one
    under [id] is unchanged altogether. *)
Definition frame (id : option string) (self self' : ShelfWidget.t) : Prop :=
  forall k,
    static_of <$> (ShelfWidget.rails self' !! k)
    = static_of <$> (ShelfWidget.rails self !! k)
    /\ (id <> Some k ->
        ShelfWidget.rails self' !! k = ShelfWidget.rails self !! k).

(** The rail carries the entries found at position [i] of the five
    sequences that run parallel to the IDs. *)
Definition built_from (config : ShelfWidget.config) (i : nat)
    (rail : RailWidget.t) : Prop :=
  nth_error (ShelfWidget.mac_addresses config) i
  = Some (RailWidget.mac_address rail)
  /\ nth_error (ShelfWidget.rail_empty_distance config) i
     = Some (RailWidget.rail_empty_distance rail)
  /\ nth_error (ShelfWidget.rail_full_distance config) i
     = Some (RailWidget.rail_full_distance rail)
  /\ nth_error (ShelfWidget.item_length config) i
     = Some (RailWidget.item_length rail)
  /\ nth_error (ShelfWidget.image_path config) i
     = Some (RailWidget.image_path rail).

(** The rail under key [k] is the one the constructor builds for some
    position of the configuration: [k] is the canonical form of the ID at
    that position, below [TOTAL_ELEMENTS]; the other entries come from
    the same position; the derived values are computed from them; nothing
    is displayed yet. *)
Definition registered (config : ShelfWidget.config) (k : string)
    (rail : RailWidget.t) : Prop :=
  RailWidget.esl_id rail = k
  /\ RailWidget.item_length rail <> 0
  /\ RailWidget.item_count rail = None
  /\ RailWidget.color rail = None
  /\ RailWidget.max_items rail
     = (RailWidget.rail_empty_distance rail
        - RailWidget.rail_full_distance rail) / RailWidget.item_length rail
  /\ Py.int_quarter (RailWidget.item_length rail)
     = Ok (RailWidget.tolerance rail)
  /\ exists (i : nat) (s : string),
       (i < ShelfWidget.TOTAL_ELEMENTS)%nat
       /\ nth_error (ShelfWidget.ids config) i = Some s
       /\ ShelfWidget.canonical s = Ok k
       /\ built_from config i rail.

(** The settings of the port: everything but whether it is open and what
    it has sent. *)
Definition settings_of (p : SerialHandler.t)
    : string * Z * SerialHandler.DataBits * SerialHandler.Parity
      * SerialHandler.StopBits * SerialHandler.FlowControl :=
  (SerialHandler.portName p, SerialHandler.baudRate p,
   SerialHandler.dataBits p, SerialHandler.parity p,
   SerialHandler.stopBits p, SerialHandler.flowControl p).

(** * Theorems *)

(** ** Decoder *)

Section Decoder.

Import Parser.

Lemma parse_message_sentinel (line : string) :
  sentinel line = true ->
  parse_message line = parse_message_fields (Py.strip line).
Proof.
  unfold sentinel, parse_message. intros ->. reflexivity.
Qed.

Lemma parse_message_no_sentinel (line : string) :
  sentinel line = false ->
  parse_message line = Some (Unclassified line).
Proof.
  unfold sentinel, parse_message. intros ->. reflexivity.
Qed.

Lemma split_head (sep : ascii) (s : string) :
  exists k vs, Py.split sep s = k :: vs.
Proof.
  induction s as [|c s [k [vs IH]]]; simpl.
  - eauto.
  - destruct (Ascii.eqb c sep); [eauto|]. rewrite IH. eauto.
Qed.

(** What the [try] block does once the fields and the split of the first
    one are known. *)
Lemma try_first_field (msg f0 k : string) (rest vs : list string) :
  Py.findall_fields (Py.tail msg) = f0 :: rest ->
  Py.split ":" f0 = k :: vs ->
  parse_message_fields_try msg =
    if String.eqb (Py.upper k) "ESL_ID" then
      let? value := Py.index vs 0 in
      let esl_id := Py.strip value in
      let? field1 := Py.index rest 0 in
      let second_field := Py.split ":" field1 in
      let? key2 := Py.index second_field 0 in
      let kind := Py.upper (Py.strip key2) in
      if String.eqb kind "DISTANCE" then
        let? payload := Py.index second_field 1 in
        let? d := Py.int 10 (Py.strip payload) in
        Ok (Message.__init__ DISTANCE msg (Some esl_id) (Some d))
      else if String.eqb kind "BATTERY" then
        let? payload := Py.index second_field 1 in
        let? d := Py.int 10 (Py.strip payload) in
        Ok (Message.__init__ BATTERY msg (Some esl_id) (Some d))
      else if String.eqb kind "TAG DISCONNECTED" then
        Ok (Message.__init__ DISCONNECTED msg (Some esl_id) None)
      else
        Ok (Message.__init__ OTHER msg None None)
    else
      Ok (Message.__init__ OTHER msg None None).
Proof.
  intros Hf Hs. unfold parse_message_fields_try.
  rewrite Hf. cbn [Py.index nth_error res_bind]. rewrite Hs.
  reflexivity.
Qed.

Lemma index_cons {A : Type} (x : A) (l : list A) (i : nat) :
  Py.index (x :: l) (S i) = Py.index l i.
Proof. reflexivity. Qed.

(** Which lines give a message and which give none.  The decoder never
    raises.  A line without the sentinel becomes [OTHER] with the text as
    received; a sentinel line whose first field has another key than
    [ESL_ID] becomes [OTHER] with the stripped text; a sentinel line with
    no bracketed field, with no second field, or with a [DISTANCE] or
    [BATTERY] field whose payload is missing or is not an integer, gives
    no message at all. *)
Theorem decode_total_optional (line : string) :
  (sentinel line = false ->
     parse_message line = Some (Unclassified line)) /\
  (sentinel line = true -> fields_of line = [] ->
     parse_message line = None) /\
  (sentinel line = true ->
     forall f0 rest k vs,
       fields_of line = f0 :: rest ->
       Py.split ":" f0 = k :: vs ->
       String.eqb (Py.upper k) "ESL_ID" = false ->
       parse_message line = Some (Unclassified (Py.strip line))) /\
  (sentinel line = true ->
     forall f0 k vs,
       fields_of line = [f0] ->
       Py.split ":" f0 = k :: vs ->
       String.eqb (Py.upper k) "ESL_ID" = true ->
       parse_message line = None) /\
  (sentinel line = true ->
     forall f0 f1 rest k vs k2 payloads,
       fields_of line = f0 :: f1 :: rest ->
       Py.split ":" f0 = k :: vs ->
       String.eqb (Py.upper k) "ESL_ID" = true ->
       Py.split ":" f1 = k2 :: payloads ->
       Py.upper (Py.strip k2) = "DISTANCE"
       \/ Py.upper (Py.strip k2) = "BATTERY" ->
       bad_payload payloads ->
       parse_message line = None).
Proof.
  repeat split.
  - apply parse_message_no_sentinel.
  - intros Hs Hf. rewrite parse_message_sentinel by assumption.
    unfold parse_message_fields, parse_message_fields_try.
    unfold fields_of in Hf. rewrite Hf. reflexivity.
  - intros Hs f0 rest k vs Hf Hk Hkey.
    rewrite parse_message_sentinel by assumption.
    unfold parse_message_fields.
    rewrite (try_first_field _ _ _ _ _ Hf Hk), Hkey. reflexivity.
  - intros Hs f0 k vs Hf Hk Hkey.
    rewrite parse_message_sentinel by assumption.
    unfold parse_message_fields.
    rewrite (try_first_field _ _ _ _ _ Hf Hk), Hkey.
    destruct vs; reflexivity.
  - intros Hs f0 f1 rest k vs k2 payloads Hf Hk Hkey Hk2 Hkind Hbad.
    rewrite parse_message_sentinel by assumption.
    unfold parse_message_fields.
    rewrite (try_first_field _ _ _ _ _ Hf Hk), Hkey.
    destruct vs as [|v vs]; [reflexivity|].
    cbn [Py.index nth_error res_bind]. rewrite Hk2.
    cbn [Py.index nth_error res_bind].
    destruct Hkind as [-> | ->]; cbn [String.eqb Ascii.eqb Bool.eqb];
      (destruct payloads as [|p ps]; [reflexivity|]);
      cbn [Py.index nth_error res_bind];
      destruct Hbad as [e ->]; reflexivity.
Qed.

Lemma decode_total_optional_witness :
  parse_message " hello" = Some (Unclassified " hello")
  /\ parse_message "#" = None
  /\ parse_message " #[FOO:1] " = Some (Unclassified "#[FOO:1]")
  /\ parse_message "#[ESL_ID:0A]" = None
  /\ parse_message "#[ESL_ID:0A][DISTANCE:abc]" = None.
Proof.
  split; [|split; [|split; [|split]]].
  - apply (proj1 (decode_total_optional " hello")). reflexivity.
  - apply (proj1 (proj2 (decode_total_optional "#"))); reflexivity.
  - apply (proj1 (proj2 (proj2 (decode_total_optional " #[FOO:1] ")))
             eq_refl "FOO:1" [] "FOO" ["1"]); reflexivity.
  - apply (proj1 (proj2 (proj2 (proj2 (decode_total_optional "#[ESL_ID:0A]"))))
             eq_refl "ESL_ID:0A" "ESL_ID" ["0A"]); reflexivity.
  - apply (proj2 (proj2 (proj2 (proj2
             (decode_total_optional "#[ESL_ID:0A][DISTANCE:abc]"))))
             eq_refl "ESL_ID:0A" "DISTANCE:abc" [] "ESL_ID" ["0A"]
             "DISTANCE" ["abc"]);
      try reflexivity.
    + left. reflexivity.
    + exists ValueError. reflexivity.
Defined.

(** C1: the code breaks the claim, and the documentation of
    [parse_message_fields], which promises a [Message] object.  A
    sentinel line without fields, without a second field or with a
    payload that is no integer is not turned into an Unclassified event,
    as the lines without [ESL_ID] are: the blanket [except] returns
    [None], [parse_message] emits it, and so the decoder does not return
    an event for every line. *)
Lemma decode_malformed_not_unclassified :
  parse_message "#" = None
  /\ parse_message "#[ESL_ID:0A]" = None
  /\ parse_message "#[ESL_ID:0A][DISTANCE:abc]" = None
  /\ parse_message "#[FOO:1]" = Some (Unclassified "#[FOO:1]")
  /\ parse_message "#[ESL_ID:0A][FOO:abc]"
     = Some (Unclassified "#[ESL_ID:0A][FOO:abc]")
  /\ ~ (forall line, exists m, parse_message line = Some m).
Proof.
  repeat split; try reflexivity.
  intros H. destruct (H "#") as [m Hm]. discriminate Hm.
Qed.

Lemma convert_unreadable (s : string) :
  Py.int 16 s = Raise ValueError ->
  Message._convert_esl_id (Some s) = None.
Proof.
  unfold Message._convert_esl_id. intros ->. reflexivity.
Qed.

Lemma init_unreadable (ty : MessageType) (text s : string) (d : option Z) :
  Py.int 16 s = Raise ValueError ->
  Message.__init__ ty text (Some s) d = Message.Build ty text None d.
Proof.
  intros H. unfold Message.__init__. rewrite (convert_unreadable _ H).
  reflexivity.
Qed.

(** C2, as the code has it: when the first field has the key [ESL_ID] and
    a value that is no hexadecimal literal, every message the decoder
    returns has no ID and carries the stripped text, but its type is still
    the one the second field selects: [DISTANCE] and [BATTERY] with their
    integer, [DISCONNECTED], and [OTHER] for any other key. *)
Theorem decode_unreadable_id (line f0 k v : string) (rest vs : list string) :
  sentinel line = true ->
  fields_of line = f0 :: rest ->
  Py.split ":" f0 = k :: v :: vs ->
  String.eqb (Py.upper k) "ESL_ID" = true ->
  Py.int 16 (Py.strip v) = Raise ValueError ->
  (forall m, parse_message line = Some m ->
     Message.esl_id m = None /\ Message.content m = Py.strip line) /\
  (forall f1 rest' k2 payloads,
     rest = f1 :: rest' ->
     Py.split ":" f1 = k2 :: payloads ->
     let kind := Py.upper (Py.strip k2) in
     (forall p ps d,
        kind = "DISTANCE" -> payloads = p :: ps ->
        Py.int 10 (Py.strip p) = Ok d ->
        parse_message line
        = Some (Message.Build DISTANCE (Py.strip line) None (Some d))) /\
     (forall p ps d,
        kind = "BATTERY" -> payloads = p :: ps ->
        Py.int 10 (Py.strip p) = Ok d ->
        parse_message line
        = Some (Message.Build BATTERY (Py.strip line) None (Some d))) /\
     (kind = "TAG DISCONNECTED" ->
        parse_message line
        = Some (Message.Build DISCONNECTED (Py.strip line) None None)) /\
     (kind <> "DISTANCE" -> kind <> "BATTERY" ->
      kind <> "TAG DISCONNECTED" ->
        parse_message line = Some (Unclassified (Py.strip line)))).
Proof.
  intros Hs Hf Hk Hkey Hid.
  rewrite parse_message_sentinel by assumption.
  unfold parse_message_fields.
  rewrite (try_first_field _ _ _ _ _ Hf Hk), Hkey.
  cbn [Py.index nth_error res_bind].
  split.
  - intros m.
    destruct rest as [|f1 rest']; [discriminate|].
    cbn [Py.index nth_error res_bind].
    destruct (split_head ":" f1) as [k2 [ps ->]].
    cbn [Py.index nth_error res_bind].
    repeat match goal with
    | |- context [if ?b then _ else _] => destruct b
    end;
    rewrite ?index_cons;
    try (destruct ps as [|p ps]; cbn [Py.index nth_error res_bind];
         [|destruct (Py.int 10 (Py.strip p)); cbn [res_bind]]);
    rewrite ?(init_unreadable _ _ _ _ Hid);
    intros Hm; first [discriminate Hm | injection Hm as Hm; subst m];
    split; reflexivity.
  - intros f1 rest' k2 payloads -> Hk2.
    cbn [Py.index nth_error res_bind]. rewrite Hk2.
    cbn [Py.index nth_error res_bind].
    repeat split.
    + intros p ps d Hkind -> Hd. rewrite Hkind.
      cbn [String.eqb Ascii.eqb Bool.eqb Py.index nth_error res_bind].
      rewrite Hd. cbn [res_bind].
      rewrite (init_unreadable _ _ _ _ Hid). reflexivity.
    + intros p ps d Hkind -> Hd. rewrite Hkind.
      cbn [String.eqb Ascii.eqb Bool.eqb Py.index nth_error res_bind].
      rewrite Hd. cbn [res_bind].
      rewrite (init_unreadable _ _ _ _ Hid). reflexivity.
    + intros Hkind. rewrite Hkind.
      cbn [String.eqb Ascii.eqb Bool.eqb].
      rewrite (init_unreadable _ _ _ _ Hid). reflexivity.
    + intros H1 H2 H3.
      destruct (String.eqb_spec (Py.upper (Py.strip k2)) "DISTANCE");
        [contradiction|].
      destruct (String.eqb_spec (Py.upper (Py.strip k2)) "BATTERY");
        [contradiction|].
      destruct (String.eqb_spec (Py.upper (Py.strip k2)) "TAG DISCONNECTED");
        [contradiction|].
      reflexivity.
Qed.

Lemma decode_unreadable_id_witness :
  parse_message "#[ESL_ID:zz][DISTANCE:12]"
  = Some (Message.Build DISTANCE "#[ESL_ID:zz][DISTANCE:12]" None (Some 12)).
Proof.
  refine (proj1 (proj2 (decode_unreadable_id
            "#[ESL_ID:zz][DISTANCE:12]" "ESL_ID:zz" "ESL_ID" "zz"
            ["DISTANCE:12"] [] eq_refl eq_refl eq_refl eq_refl eq_refl)
          "DISTANCE:12" [] "DISTANCE" ["12"] eq_refl eq_refl)
          "12" [] 12 eq_refl eq_refl eq_refl).
Defined.

(** C2 as stated fails: with an unreadable ID and a well-formed distance
    field the decoder produces a typed [DISTANCE] message (without ID), not
    an Unclassified one. *)
Lemma decode_unreadable_id_typed :
  let line := "#[ESL_ID:zz][DISTANCE:12]" in
  Py.int 16 "zz" = Raise ValueError
  /\ parse_message line = Some (Message.Build DISTANCE line None (Some 12))
  /\ parse_message line <> Some (Unclassified line).
Proof.
  repeat split; try reflexivity. discriminate.
Qed.

End Decoder.

(** ** Canonical ESL ID *)

Section CanonicalId.

Lemma holds_from_spec (p : Z -> bool) (n : nat) (v : Z) :
  holds_from p n v = true ->
  forall k, v <= k < v + Z.of_nat n -> p k = true.
Proof.
  revert v. induction n as [|n IH]; intros v H k Hk.
  - lia.
  - cbn [holds_from] in H. apply andb_true_iff in H as [Hv Hn].
    destruct (Z.eq_dec k v) as [->|Hne]; [exact Hv|].
    apply (IH (v + 1) Hn). lia.
Qed.

Lemma format_04X_table :
  holds_from (fun v => four_upper_hex (Py.format_04X v))
             (Z.to_nat 65536) 0 = true.
Proof. vm_compute. reflexivity. Qed.

(** Within sixteen bits the format gives four upper-case hex digits. *)
Lemma format_04X_four (v : Z) :
  0 <= v < 65536 -> four_upper_hex (Py.format_04X v) = true.
Proof.
  intros Hv.
  apply (holds_from_spec _ _ _ format_04X_table v). lia.
Qed.

(** An ID is produced exactly when [int(esl_id, 16)] succeeds. *)
Lemma convert_esl_id_spec (s : string) :
  Message._convert_esl_id (Some s)
  = match Py.int 16 s with
    | Ok v => Some (Py.format_04X v)
    | Raise _ => None
    end.
Proof.
  unfold Message._convert_esl_id. destruct (Py.int 16 s); reflexivity.
Qed.

Lemma convert_esl_id_in_range (s : string) (v : Z) :
  Py.int 16 s = Ok v -> 0 <= v < 65536 ->
  exists id, Message._convert_esl_id (Some s) = Some id
             /\ four_upper_hex id = true.
Proof.
  intros Hs Hv. rewrite convert_esl_id_spec, Hs.
  eexists. split; [reflexivity|]. apply format_04X_four, Hv.
Qed.

(** C4 on hex-parseable inputs outside sixteen bits: the ID returned for
    12345 has five digits, and the one for -a starts with a minus sign;
    neither is a four-digit upper-case hex string.  Such an ID reaches the
    method from the wire. *)
Theorem convert_esl_id_not_four_digits :
  Py.int 16 "12345" = Ok 74565
  /\ Message._convert_esl_id (Some "12345") = Some "12345"
  /\ four_upper_hex "12345" = false
  /\ Py.int 16 "-a" = Ok (-10)
  /\ Message._convert_esl_id (Some "-a") = Some "-00A"
  /\ four_upper_hex "-00A" = false
  /\ Parser.parse_message "#[ESL_ID:12345][DISTANCE:1]"
     = Some (Message.Build DISTANCE "#[ESL_ID:12345][DISTANCE:1]"
                           (Some "12345") (Some 1)).
Proof. repeat split; reflexivity. Qed.

End CanonicalId.

(** ** Rail *)

Section Rail.

Import RailWidget.

Lemma floordiv_nonzero (a b : Z) : b <> 0 -> Py.floordiv a b = Ok (a / b).
Proof.
  intros Hb. unfold Py.floordiv.
  destruct (Z.eqb_spec b 0); [contradiction|reflexivity].
Qed.

(** In the range where binary64 holds every integer, [int(0.25 * n)] is
    the quotient by four. *)
Lemma int_quarter_exact (n : Z) :
  0 <= n < 2 ^ 53 -> Py.int_quarter n = Ok (n / 4).
Proof.
  intros Hn. unfold Py.int_quarter, Py.float_of_nonneg, Py.float_prec.
  rewrite Z.abs_eq by lia.
  assert (Hk : (Z.log2 n + 1 - 53 <=? 0) = true).
  { apply Z.leb_le.
    destruct (Z.eq_dec n 0) as [->|Hne]; [cbn; lia|].
    assert (Z.log2 n < 53) by (apply Z.log2_lt_pow2; lia). lia. }
  rewrite Hk. cbn [res_bind]. f_equal.
  destruct (Z.eq_dec n 0) as [->|Hne]; [reflexivity|].
  rewrite Z.sgn_pos by lia. lia.
Qed.

(** What [update_distance] does on a rail with a non-zero item length. *)
Lemma update_distance_spec (r : t) (d : Z) :
  item_length r <> 0 ->
  update_distance d r
  = ([], set_item_count
           (Py.clamp ((rail_empty_distance r - d + tolerance r) / item_length r)
                     0 (max_items r)) r,
     Ok tt).
Proof.
  intros Hl. unfold update_distance, bind, get, lift, modify, n_items.
  rewrite floordiv_nonzero by assumption. reflexivity.
Qed.

Lemma c_int_fits (v : Z) : fits_c_int v -> Qt.c_int v = Ok v.
Proof.
  unfold fits_c_int, Qt.c_int. intros H.
  destruct (Z.leb_spec (-2147483648) v); [|lia].
  destruct (Z.leb_spec v 2147483647); [|lia]. reflexivity.
Qed.

Lemma c_int_overflow (v : Z) :
  ~ fits_c_int v -> Qt.c_int v = Raise OverflowError.
Proof.
  unfold fits_c_int, Qt.c_int. intros H.
  destruct (Z.leb_spec (-2147483648) v); [|reflexivity].
  destruct (Z.leb_spec v 2147483647); [lia|reflexivity].
Qed.

Lemma c_int_inv (v w : Z) : Qt.c_int v = Ok w -> w = v /\ fits_c_int v.
Proof.
  unfold fits_c_int, Qt.c_int.
  destruct (Z.leb_spec (-2147483648) v); [|discriminate].
  destruct (Z.leb_spec v 2147483647); [|discriminate].
  intros [= <-]. lia.
Qed.

(** C3, for item lengths that binary64 represents exactly.  The
    constructor computes [tolerance = floor(item_length / 4)] and
    [max_items = floor((empty - full) / item_length)].  When [max_items]
    fits a 32-bit signed integer the rail is built with these values, and
    from then on, in whatever state the rail is, [update_distance d]
    stores and displays [item_count = min(max(floor((empty - d +
    tolerance) / item_length), 0), max_items)] and changes nothing else;
    when it does not, the progress bar refuses the range and the
    constructor ends with [OverflowError]. *)
Theorem rail_item_count (e f l : Z) (id mac img : string) :
  0 < l < 2 ^ 53 ->
  (fits_c_int ((e - f) / l) ->
   exists r,
     __init__ e f l id mac img = Ok r
     /\ tolerance r = l / 4
     /\ max_items r = (e - f) / l
     /\ item_count r = None
     /\ forall r' d,
          calibration r' = calibration r ->
          update_distance d r'
          = ([], set_item_count
                   (Py.clamp ((e - d + l / 4) / l) 0 ((e - f) / l)) r',
             Ok tt))
  /\ (~ fits_c_int ((e - f) / l) ->
      __init__ e f l id mac img = Raise OverflowError).
Proof.
  intros Hl. unfold __init__.
  rewrite int_quarter_exact by lia. cbn [res_bind].
  rewrite floordiv_nonzero by lia. cbn [res_bind].
  unfold _setup_ui. cbn [max_items]. split; intros Hm.
  - rewrite (c_int_fits _ Hm). cbn [res_bind].
    eexists. do 4 (split; [reflexivity|]).
    intros r' d Hc. unfold calibration in Hc.
    cbn [rail_empty_distance rail_full_distance item_length tolerance
         max_items] in Hc.
    injection Hc as He Hf Hlen Ht Hmax.
    rewrite update_distance_spec by lia.
    rewrite He, Hlen, Ht, Hmax. reflexivity.
  - rewrite (c_int_overflow _ Hm). reflexivity.
Qed.

(** The rail of the specification's scenario: empty 500, full 100, item
    length 40. *)
Lemma rail_item_count_witness :
  exists r,
    __init__ 500 100 40 "000A" "mac" "img" = Ok r
    /\ tolerance r = 10
    /\ max_items r = 10
    /\ item_count r = None
    /\ forall r' d,
         calibration r' = calibration r ->
         update_distance d r'
         = ([], set_item_count
                  (Py.clamp ((500 - d + 10) / 40) 0 10) r',
            Ok tt).
Proof.
  apply (proj1 (rail_item_count 500 100 40 "000A" "mac" "img"
                  ltac:(lia))).
  unfold fits_c_int. change ((500 - 100) / 40) with 10. lia.
Defined.

(** The scenario itself: a reading of 120 gives nine items. *)
Lemma scenario_rail_120 :
  exists r,
    __init__ 500 100 40 "000A" "mac" "img" = Ok r
    /\ tolerance r = 10 /\ max_items r = 10
    /\ update_distance 120 r = ([], set_item_count 9 r, Ok tt).
Proof.
  eexists. repeat split.
Qed.

(** C3 as stated fails beyond 53 bits: for the item length [2^54 + 3] the
    float product rounds, and the stored tolerance is one more than the
    floor of a quarter of the item length.  It also fails where
    [max_items] leaves the 32-bit range: with empty distance [2^31], full
    distance 0 and item length 1 no rail is built. *)
Lemma tolerance_rounds_above_53_bits :
  exists r,
    __init__ 0 0 18014398509481987 "000A" "mac" "img" = Ok r
    /\ tolerance r = 4503599627370497
    /\ 18014398509481987 / 4 = 4503599627370496
    /\ tolerance r <> 18014398509481987 / 4
    /\ __init__ 2147483648 0 1 "000A" "mac" "img" = Raise OverflowError.
Proof.
  eexists. split; [reflexivity|]. cbn. repeat split. discriminate.
Qed.

Lemma clamp_le_hi (n hi : Z) : Py.clamp n 0 hi <= hi.
Proof. unfold Py.clamp. lia. Qed.

Lemma clamp_ge_lo (n hi : Z) : 0 <= hi -> 0 <= Py.clamp n 0 hi.
Proof. unfold Py.clamp. lia. Qed.

Lemma clamp_mono (n m hi : Z) : n <= m -> Py.clamp n 0 hi <= Py.clamp m 0 hi.
Proof. unfold Py.clamp. lia. Qed.

(** C5, as the code has it: for a rail with a positive item length the
    count stored by [update_distance] does not grow with the distance and
    never exceeds [max_items]; it is non-negative whenever [max_items] is,
    that is whenever the empty distance is not below the full one. *)
Theorem item_count_monotone_clamped (r : t) (d1 d2 : Z) :
  0 < item_length r ->
  d1 <= d2 ->
  exists n1 n2,
    update_distance d1 r = ([], set_item_count n1 r, Ok tt)
    /\ update_distance d2 r = ([], set_item_count n2 r, Ok tt)
    /\ n2 <= n1
    /\ n1 <= max_items r /\ n2 <= max_items r
    /\ (0 <= max_items r -> 0 <= n1 /\ 0 <= n2).
Proof.
  intros Hl Hd.
  rewrite !update_distance_spec by lia.
  eexists. eexists. do 2 (split; [reflexivity|]).
  split; [|split; [|split]].
  - apply clamp_mono. apply Z.div_le_mono; lia.
  - apply clamp_le_hi.
  - apply clamp_le_hi.
  - intros Hm. split; apply clamp_ge_lo; exact Hm.
Qed.

Lemma item_count_monotone_clamped_witness :
  let r := Build "000A" "mac" 500 100 40 10 10 "img" None None in
  exists n1 n2,
    update_distance 120 r = ([], set_item_count n1 r, Ok tt)
    /\ update_distance 200 r = ([], set_item_count n2 r, Ok tt)
    /\ n2 <= n1
    /\ n1 <= 10 /\ n2 <= 10
    /\ (0 <= 10 -> 0 <= n1 /\ 0 <= n2).
Proof.
  apply (item_count_monotone_clamped
           (Build "000A" "mac" 500 100 40 10 10 "img" None None) 120 200);
    cbn; lia.
Defined.

(** A rail is within its bounds when its full distance does not exceed its
    empty distance. *)
Lemma init_max_items_nonneg (e f l : Z) (id mac img : string) (r : t) :
  0 < l -> f <= e -> __init__ e f l id mac img = Ok r -> 0 <= max_items r.
Proof.
  intros Hl Hfe. unfold __init__.
  destruct (Py.int_quarter l); [|discriminate]. cbn [res_bind].
  rewrite floordiv_nonzero by lia. cbn [res_bind].
  unfold _setup_ui. cbn [max_items].
  destruct (Qt.c_int ((e - f) / l)); [|discriminate]. cbn [res_bind].
  intros [= <-]. cbn. apply Z.div_pos; lia.
Qed.

(** C5 as stated fails for a rail whose empty distance is below its full
    distance: with empty 100, full 500 and item length 40, [max_items] is
    -10 and every reading stores -10, which is not in [0, max_items]. *)
Lemma item_count_negative :
  exists r,
    __init__ 100 500 40 "000A" "mac" "img" = Ok r
    /\ item_length r = 40
    /\ max_items r = -10
    /\ update_distance 0 r = ([], set_item_count (-10) r, Ok tt)
    /\ ~ (0 <= -10 <= max_items r).
Proof.
  eexists. split; [reflexivity|]. cbn. repeat split. lia.
Qed.

End Rail.

(** ** Shelf registry *)

Section Shelf.

Import ShelfWidget.

Lemma is_rail_valid_true (self : t) (id : string) (rail : RailWidget.t) :
  rails self !! id = Some rail -> is_rail_valid self id = true.
Proof.
  intros H. unfold is_rail_valid. apply bool_decide_eq_true. eauto.
Qed.

Lemma is_rail_valid_false (self : t) (id : string) :
  rails self !! id = None -> is_rail_valid self id = false.
Proof.
  intros H. unfold is_rail_valid. apply bool_decide_eq_false.
  rewrite H. intros [x Hx]. discriminate Hx.
Qed.

(** C7: a message whose ID is present but is no key of [rails] raises
    nothing and leaves the shelf as it is; the only effect is one debug
    line in the log. *)
Theorem update_shelf_unknown_id (self : t) (message : Message.t) (id : string) :
  Message.esl_id message = Some id ->
  rails self !! id = None ->
  update_shelf message self
  = ([Log DEBUG "ESL ID {message.esl_id} not on the shelf, ignoring."],
     self, Ok tt).
Proof.
  intros Hid Hnone. unfold update_shelf, bind, get.
  rewrite Hid, (is_rail_valid_false _ _ Hnone). reflexivity.
Qed.

(** The specification's scenario: a registry built from the single ID 0A,
    and a distance reading for 000B. *)
Lemma update_shelf_unknown_id_witness :
  exists tr self,
    __init__ (Config ["0A"] ["mac"] [500] [100] [40] ["img"]) = (tr, Ok self)
    /\ update_shelf (Message.__init__ DISTANCE "#[ESL_ID:000B][DISTANCE:1]"
                                      (Some "000B") (Some 1)) self
       = ([Log DEBUG "ESL ID {message.esl_id} not on the shelf, ignoring."],
          self, Ok tt).
Proof.
  eexists. eexists. split; [vm_compute; reflexivity|].
  apply (update_shelf_unknown_id _ _ "000B"); vm_compute; reflexivity.
Defined.

(** C8: a [DISCONNECTED] message for a rail of the shelf turns that rail's
    colour to the disconnected one and changes nothing else: its item
    count and every other attribute stay, the other rails stay, nothing is
    logged, emitted or raised. *)
Theorem update_shelf_disconnected (self : t) (message : Message.t)
    (id : string) (rail : RailWidget.t) :
  Message.msg_type message = DISCONNECTED ->
  Message.esl_id message = Some id ->
  rails self !! id = Some rail ->
  exists rail',
    update_shelf message self
    = ([], set_rails (insert id rail') self, Ok tt)
    /\ RailWidget.connected rail' = Some false
    /\ RailWidget.item_count rail' = RailWidget.item_count rail
    /\ calibration rail' = calibration rail
    /\ RailWidget.esl_id rail' = RailWidget.esl_id rail
    /\ RailWidget.mac_address rail' = RailWidget.mac_address rail
    /\ RailWidget.image_path rail' = RailWidget.image_path rail
    /\ forall id', id' <> id ->
         rails (set_rails (insert id rail') self) !! id' = rails self !! id'.
Proof.
  intros Hty Hid Hrail.
  exists (RailWidget.set_color "#D32F2F" rail).
  split.
  - unfold update_shelf, bind, get.
    rewrite Hid, (is_rail_valid_true _ _ _ Hrail), Hty.
    unfold on_rail. rewrite Hrail. reflexivity.
  - do 6 (split; [reflexivity|]).
    intros id' Hne. cbn [set_rails rails].
    apply lookup_insert_ne. congruence.
Qed.

Lemma update_shelf_disconnected_witness :
  let rail := RailWidget.Build "000A" "mac" 500 100 40 10 10 "img"
                               (Some 9) (Some "#FFFFFF") in
  let self := Build {[ "000A" := rail ]} in
  exists rail',
    update_shelf (Message.__init__ DISCONNECTED "#[ESL_ID:0a][TAG DISCONNECTED]"
                                   (Some "0a") None) self
    = ([], set_rails (insert "000A" rail') self, Ok tt)
    /\ RailWidget.connected rail' = Some false
    /\ RailWidget.item_count rail' = Some 9
    /\ calibration rail' = calibration rail
    /\ RailWidget.esl_id rail' = "000A"
    /\ RailWidget.mac_address rail' = "mac"
    /\ RailWidget.image_path rail' = "img"
    /\ forall id', id' <> "000A" ->
         rails (set_rails (insert "000A" rail') self) !! id' = rails self !! id'.
Proof.
  intros rail self.
  apply (update_shelf_disconnected self _ "000A" rail).
  - reflexivity.
  - reflexivity.
  - vm_compute. reflexivity.
Defined.

End Shelf.

(** ** Registry construction *)

Section Registry.
Import ShelfWidget.




Lemma index_ok {A : Type} (l : list A) (i : nat) (a : A) :
  Py.index l i = Ok a -> nth_error l i = Some a.
Proof.
  unfold Py.index. destruct (nth_error l i); [|discriminate].
  intros [= ->]. reflexivity.
Qed.

(** One successful turn of a loop of [setup_ui]. *)
Lemma add_rails_step (es fs ls : list Z) (ms is_ : list string)
    (offset index : nat) (id : string) (ids' : list string)
    (self self' : t) (tr : list effect) :
  add_rails es fs ls ms is_ offset index (id :: ids') self
  = (tr, self', Ok tt) ->
  exists e f l m i rail,
    nth_error es (index + offset) = Some e
    /\ nth_error fs (index + offset) = Some f
    /\ nth_error ls (index + offset) = Some l
    /\ nth_error ms (index + offset) = Some m
    /\ nth_error is_ (index + offset) = Some i
    /\ RailWidget.__init__ e f l id m i = Ok rail
    /\ add_rails es fs ls ms is_ offset (S index) ids'
         (set_rails (insert id rail) self)
       = (tr, self', Ok tt).
Proof.
  cbn [add_rails]. unfold bind at 1. unfold lift.
  destruct (Py.index es (index + offset)) as [e|] eqn:Ee;
    [|discriminate].
  destruct (Py.index fs (index + offset)) as [f|] eqn:Ef;
    [|discriminate].
  destruct (Py.index ls (index + offset)) as [l|] eqn:El;
    [|discriminate].
  destruct (Py.index ms (index + offset)) as [m|] eqn:Em;
    [|discriminate].
  destruct (Py.index is_ (index + offset)) as [i|] eqn:Ei;
    [|discriminate].
  cbn [res_bind].
  destruct (RailWidget.__init__ e f l id m i) as [rail|] eqn:Er;
    [|discriminate].
  unfold bind, modify.
  destruct (add_rails es fs ls ms is_ offset (S index) ids'
              (set_rails (insert id rail) self)) as [[tr' s'] r'] eqn:Erun.
  cbn [app]. intros [= <- <- ->].
  exists e, f, l, m, i, rail.
  repeat split; auto using index_ok.
Qed.








End Registry.

(** ** Serial link *)

Section Serial.
Import SerialHandler.

(** C9, as the code has it: on a closed port [send_message] writes
    nothing, leaves the port as it is, emits no signal and returns
    normally; the rejection only goes to the error log.  On an open port
    the data handed to the device is the message followed by exactly one
    line feed; when the device takes it, [message_sent] is emitted with
    the message, and when it does not, an error is logged. *)
Theorem send_message_spec (serial : t) (message : string) :
  (isOpen serial = false ->
     forall device_takes,
       send_message device_takes message serial
       = ([Log ERROR "Cannot send message. Serial Port is closed."],
          serial, Ok tt)) /\
  (isOpen serial = true ->
     send_message true message serial
     = ([Log INFO "{message}"; Emit (message_sent message)],
        accept (message ++ Py.newline) serial, Ok tt)
     /\ written (accept (message ++ Py.newline) serial)
        = (written serial ++ [(message ++ Py.newline)%string])%list
     /\ send_message false message serial
        = ([Log ERROR "Failed to write data: {self.serial.errorString()}"],
           serial, Ok tt)).
Proof.
  split.
  - intros Hc device_takes. unfold send_message, bind, get.
    rewrite Hc. reflexivity.
  - intros Ho. split; [|split].
    + unfold send_message, bind, get. rewrite Ho. cbn [negb].
      unfold write, bind, modify, ret.
      assert (Hlen : (Py.encoded_length (message ++ Py.newline) =? -1) = false).
      { apply Z.eqb_neq.
        assert (H : forall s, 0 <= Py.encoded_length s).
        { induction s as [|c s IH]; cbn [Py.encoded_length]; [lia|].
          destruct (Py.code c <? 128); lia. }
        specialize (H (message ++ Py.newline)). lia. }
      rewrite Hlen. reflexivity.
    + reflexivity.
    + unfold send_message, bind, get. rewrite Ho. reflexivity.
Qed.

Lemma send_message_spec_witness :
  send_message true "PING" QSerialPort
  = ([Log ERROR "Cannot send message. Serial Port is closed."],
     QSerialPort, Ok tt)
  /\ send_message true "PING" (setOpen true QSerialPort)
     = ([Log INFO "{message}"; Emit (message_sent "PING")],
        accept ("PING" ++ Py.newline) (setOpen true QSerialPort), Ok tt).
Proof.
  split.
  - apply (proj1 (send_message_spec QSerialPort "PING")). reflexivity.
  - apply (proj2 (send_message_spec (setOpen true QSerialPort) "PING")).
    reflexivity.
Defined.

(** C9 as stated fails: a send on a closed port raises nothing and returns
    what a successful send returns; nothing tells the caller about the
    rejection. *)
Lemma send_closed_not_reported :
  send_message true "PING" QSerialPort
  = ([Log ERROR "Cannot send message. Serial Port is closed."],
     QSerialPort, Ok tt)
  /\ snd (send_message true "PING" QSerialPort)
     = snd (send_message true "PING" (setOpen true QSerialPort))
  /\ ~ (exists e, snd (send_message true "PING" QSerialPort) = Raise e).
Proof.
  repeat split. intros [e He]. discriminate He.
Qed.

End Serial.

(** ** Serial configuration *)

Section SerialConfig.
Import SerialHandler.

Lemma bind_ok {S A B : Type} (m : M S A) (k : A -> M S B) (s s1 s2 : S)
    (a : A) (r : res B) (tr tr' : list effect) :
  m s = (tr, s1, Ok a) -> k a s1 = (tr', s2, r) ->
  bind m k s = ((tr ++ tr')%list, s2, r).
Proof. intros Hm Hk. unfold bind. rewrite Hm, Hk. reflexivity. Qed.

Lemma set_port_name_ok (name : string) (s : t) :
  name <> "" ->
  _set_port_name (Some name) s
  = ([Log DEBUG "- Name[{port_name}]"], setPortName name s, Ok tt).
Proof. intros H. destruct name; [contradiction|reflexivity]. Qed.

Lemma set_port_name_missing (port_name : option string) (s : t) :
  port_name = None \/ port_name = Some "" ->
  _set_port_name port_name s = ([], s, Raise ValueError).
Proof. intros [-> | ->]; reflexivity. Qed.





Lemma configure_serial_missing_port (config : config) (serial : t) :
  port config = None \/ port config = Some "" ->
  configure_serial config serial
  = ([Log DEBUG "Serial port configuration:";
      Log ERROR "Configuration error: {e}"],
     serial, Raise ValueError).
Proof.
  intros H. unfold configure_serial.
  unfold bind at 1. cbn [log].
  unfold bind at 1. unfold except_ValueError. unfold bind at 1.
  rewrite (set_port_name_missing _ _ H). reflexivity.
Qed.


(** What [portName] reports after [setPortName]. *)
Lemma portName_setPortName (name : string) (s : t) :
  portName (setPortName name s) = short_name name.
Proof.
  unfold portName, setPortName, short_name. cbn [systemLocation].
  unfold Qt.portNameFromSystemLocation, Qt.portNameToSystemLocation.
  destruct (String.prefix "/" name || String.prefix "./" name
            || String.prefix "../" name) eqn:E; [reflexivity|].
  destruct name as [|c name]; [reflexivity|].
  cbv beta iota delta [String.append String.prefix Qt.mid] in *.
  fold String.prefix in *.
  destruct (Ascii.ascii_dec "/" c) as [Hc|Hc];
    [replace (String.prefix "" name) with true in E
       by (destruct name; reflexivity);
     discriminate E|].
  destruct (Ascii.ascii_dec "/" "/") as [_|H]; [|contradiction].
  destruct (Ascii.ascii_dec "d" "d") as [_|H]; [|contradiction].
  destruct (Ascii.ascii_dec "e" "e") as [_|H]; [|contradiction].
  destruct (Ascii.ascii_dec "v" "v") as [_|H]; [|contradiction].
  reflexivity.
Qed.


(** An attempt to open a closed port: what is logged and emitted when the
    operating system grants it and when it refuses. *)
Lemma open_serial_closed (os_opens : string -> bool) (c : t) :
  isOpen c = false ->
  open_serial os_opens c
  = if os_opens (systemLocation c) then
      ([Log DEBUG "Serial port {self.serial.portName()} opened.";
        Emit (serial_port_opened ("Serial port " ++ portName c ++ " opened."))],
       setOpen true c, Ok tt)
    else
      ([Log ERROR "Serial port error: {self.serial.errorString()}";
        Emit (serial_port_error
                "Serial port error: {self.serial.errorString()}");
        Log ERROR "Failed to open serial port {self.serial.portName()}: {self.serial.errorString()}"],
       c, Ok tt).
Proof.
  intros Hc. unfold open_serial, bind, get. rewrite Hc. cbn [negb].
  unfold open, bind, get. cbn [handle_error ret].
  destruct (os_opens (systemLocation c)); reflexivity.
Qed.


Lemma close_serial_open (serial : t) :
  isOpen serial = true ->
  close_serial serial
  = ([Log DEBUG "Closing {self.serial.portName()}.";
      Emit (serial_port_closed (portName serial ++ " closed."));
      Log DEBUG "{self.serial.portName()} closed."],
     setOpen false serial, Ok tt).
Proof.
  intros H. unfold close_serial, bind, get. rewrite H. reflexivity.
Qed.

Lemma update_serial_config_closed (os_opens : string -> bool)
    (new_config : config) (serial : t) :
  isOpen serial = false ->
  update_serial_config os_opens new_config serial
  = except_ValueError
      (bind (configure_serial new_config) (fun _ => open_serial os_opens))
      (log ERROR "Failed to update serial port configuration: {e}") serial.
Proof.
  intros Hc. unfold update_serial_config.
  unfold bind at 1. unfold get. cbv beta iota zeta. rewrite Hc.
  unfold bind at 1. cbn [ret].
  destruct (except_ValueError _ _ serial) as [[tr s'] r]. reflexivity.
Qed.

Lemma update_serial_config_open (os_opens : string -> bool)
    (new_config : config) (serial : t) :
  isOpen serial = true ->
  update_serial_config os_opens new_config serial
  = match except_ValueError
            (bind (configure_serial new_config)
                  (fun _ => open_serial os_opens))
            (log ERROR "Failed to update serial port configuration: {e}")
            (setOpen false serial)
    with
    | (tr, serial', r) =>
        ([Log DEBUG "Closing {self.serial.portName()}.";
          Emit (serial_port_closed (portName serial ++ " closed."));
          Log DEBUG "{self.serial.portName()} closed."] ++ tr,
         serial', r)%list
    end.
Proof.
  intros Ho. unfold update_serial_config.
  unfold bind at 1. unfold get. cbv beta iota zeta. rewrite Ho.
  unfold bind at 1. rewrite (close_serial_open serial Ho).
  destruct (except_ValueError _ _ (setOpen false serial)) as [[tr s'] r].
  reflexivity.
Qed.




End SerialConfig.

(** ** Decoder: typed events and the shape of its output *)

Section DecoderTyped.

Import Parser.

Lemma init_readable (ty : MessageType) (text s : string) (d : option Z)
    (n : Z) :
  Py.int 16 s = Ok n ->
  Message.__init__ ty text (Some s) d
  = Message.Build ty text (Some (Py.format_04X n)) d.
Proof.
  intros H. unfold Message.__init__, Message._convert_esl_id.
  rewrite H. reflexivity.
Qed.

(** The decoder on a sentinel line whose first two fields are known. *)
Lemma decode_two_fields (line f0 f1 k v k2 : string)
    (rest vs ps : list string) :
  sentinel line = true ->
  fields_of line = f0 :: f1 :: rest ->
  Py.split ":" f0 = k :: v :: vs ->
  String.eqb (Py.upper k) "ESL_ID" = true ->
  Py.split ":" f1 = k2 :: ps ->
  parse_message line
  = match
      (let kind := Py.upper (Py.strip k2) in
       if String.eqb kind "DISTANCE" then
         let? payload := Py.index ps 0 in
         let? d := Py.int 10 (Py.strip payload) in
         Ok (Message.__init__ DISTANCE (Py.strip line)
                              (Some (Py.strip v)) (Some d))
       else if String.eqb kind "BATTERY" then
         let? payload := Py.index ps 0 in
         let? d := Py.int 10 (Py.strip payload) in
         Ok (Message.__init__ BATTERY (Py.strip line)
                              (Some (Py.strip v)) (Some d))
       else if String.eqb kind "TAG DISCONNECTED" then
         Ok (Message.__init__ DISCONNECTED (Py.strip line)
                              (Some (Py.strip v)) None)
       else
         Ok (Message.__init__ OTHER (Py.strip line) None None))
    with
    | Ok m => Some m
    | Raise _ => None
    end.
Proof.
  intros Hs Hf Hk Hkey Hk2.
  rewrite parse_message_sentinel by assumption.
  unfold parse_message_fields.
  rewrite (try_first_field _ _ _ _ _ Hf Hk), Hkey.
  cbn [Py.index nth_error res_bind]. rewrite Hk2.
  cbn [Py.index nth_error res_bind]. reflexivity.
Qed.

(** A sentinel line whose first field is [ESL_ID] with a hexadecimal value
    and whose second field is [DISTANCE] or [BATTERY] with an integer, or
    [TAG DISCONNECTED], decodes to the typed message: the stripped text,
    the ID in canonical form, the integer.  Keys are matched without
    regard to case, the second one also without regard to white space
    around it; further fields and further colon-separated parts are
    ignored. *)
Theorem decode_typed (line f0 f1 k v k2 : string) (rest vs ps : list string)
    (n : Z) :
  sentinel line = true ->
  fields_of line = f0 :: f1 :: rest ->
  Py.split ":" f0 = k :: v :: vs ->
  String.eqb (Py.upper k) "ESL_ID" = true ->
  Py.int 16 (Py.strip v) = Ok n ->
  Py.split ":" f1 = k2 :: ps ->
  (forall p ps' d,
     Py.upper (Py.strip k2) = "DISTANCE" -> ps = p :: ps' ->
     Py.int 10 (Py.strip p) = Ok d ->
     parse_message line
     = Some (Message.Build DISTANCE (Py.strip line)
                           (Some (Py.format_04X n)) (Some d))) /\
  (forall p ps' d,
     Py.upper (Py.strip k2) = "BATTERY" -> ps = p :: ps' ->
     Py.int 10 (Py.strip p) = Ok d ->
     parse_message line
     = Some (Message.Build BATTERY (Py.strip line)
                           (Some (Py.format_04X n)) (Some d))) /\
  (Py.upper (Py.strip k2) = "TAG DISCONNECTED" ->
     parse_message line
     = Some (Message.Build DISCONNECTED (Py.strip line)
                           (Some (Py.format_04X n)) None)).
Proof.
  intros Hs Hf Hk Hkey Hid Hk2.
  rewrite (decode_two_fields _ _ _ _ _ _ _ _ _ Hs Hf Hk Hkey Hk2).
  cbv zeta. repeat split.
  - intros p ps' d -> -> Hd.
    cbn [String.eqb Ascii.eqb Bool.eqb Py.index nth_error res_bind].
    rewrite Hd. cbn [res_bind].
    rewrite (init_readable _ _ _ _ _ Hid). reflexivity.
  - intros p ps' d -> -> Hd.
    cbn [String.eqb Ascii.eqb Bool.eqb Py.index nth_error res_bind].
    rewrite Hd. cbn [res_bind].
    rewrite (init_readable _ _ _ _ _ Hid). reflexivity.
  - intros ->. cbn [String.eqb Ascii.eqb Bool.eqb].
    rewrite (init_readable _ _ _ _ _ Hid). reflexivity.
Qed.

Lemma decode_typed_witness :
  parse_message "  #[esl_id: 0a ][ Battery : 87 : x ][RSSI:-40]  "
  = Some (Message.Build BATTERY
            "#[esl_id: 0a ][ Battery : 87 : x ][RSSI:-40]"
            (Some "000A") (Some 87)).
Proof.
  refine (proj1 (proj2 (decode_typed
            "  #[esl_id: 0a ][ Battery : 87 : x ][RSSI:-40]  "
            "esl_id: 0a " " Battery : 87 : x " "esl_id" " 0a " " Battery "
            ["RSSI:-40"] [] [" 87 "; " x "] 10
            eq_refl eq_refl eq_refl eq_refl eq_refl eq_refl))
          " 87 " [" x "] 87 eq_refl eq_refl eq_refl).
Defined.

(** A readable ID does not survive an unknown second key: the message is
    [OTHER] and carries the stripped text only. *)
Theorem decode_unknown_kind_drops_id (line f0 f1 k v k2 : string)
    (rest vs ps : list string) :
  sentinel line = true ->
  fields_of line = f0 :: f1 :: rest ->
  Py.split ":" f0 = k :: v :: vs ->
  String.eqb (Py.upper k) "ESL_ID" = true ->
  Py.split ":" f1 = k2 :: ps ->
  Py.upper (Py.strip k2) <> "DISTANCE" ->
  Py.upper (Py.strip k2) <> "BATTERY" ->
  Py.upper (Py.strip k2) <> "TAG DISCONNECTED" ->
  parse_message line = Some (Unclassified (Py.strip line)).
Proof.
  intros Hs Hf Hk Hkey Hk2 H1 H2 H3.
  rewrite (decode_two_fields _ _ _ _ _ _ _ _ _ Hs Hf Hk Hkey Hk2).
  cbv zeta.
  destruct (String.eqb_spec (Py.upper (Py.strip k2)) "DISTANCE");
    [contradiction|].
  destruct (String.eqb_spec (Py.upper (Py.strip k2)) "BATTERY");
    [contradiction|].
  destruct (String.eqb_spec (Py.upper (Py.strip k2)) "TAG DISCONNECTED");
    [contradiction|].
  reflexivity.
Qed.

Lemma decode_unknown_kind_drops_id_witness :
  parse_message "#[ESL_ID:0A][TEMPERATURE:21]"
  = Some (Unclassified "#[ESL_ID:0A][TEMPERATURE:21]").
Proof.
  apply (decode_unknown_kind_drops_id
           "#[ESL_ID:0A][TEMPERATURE:21]" "ESL_ID:0A" "TEMPERATURE:21"
           "ESL_ID" "0A" "TEMPERATURE" [] [] ["21"]);
    try reflexivity; discriminate.
Defined.

(** The shape of the messages that leave the decoder. *)
Lemma parse_message_shape (line : string) (m : Message.t) :
  parse_message line = Some m ->
  (match Message.msg_type m with
   | DISTANCE | BATTERY => exists d, Message.data m = Some d
   | DISCONNECTED | OTHER => Message.data m = None
   end)
  /\ (Message.msg_type m = OTHER -> Message.esl_id m = None)
  /\ Message.content m = (if sentinel line then Py.strip line else line).
Proof.
  destruct (sentinel line) eqn:Hs.
  - rewrite parse_message_sentinel by assumption.
    unfold parse_message_fields, parse_message_fields_try.
    generalize (Py.strip line) as msg. intros msg.
    destruct (Py.findall_fields (Py.tail msg)) as [|f0 rest];
      [discriminate|].
    cbn [Py.index nth_error res_bind].
    destruct (split_head ":" f0) as [k [vs ->]].
    cbn [Py.index nth_error res_bind].
    destruct (String.eqb (Py.upper k) "ESL_ID").
    + destruct vs as [|v vs]; [discriminate|].
      cbn [Py.index nth_error res_bind].
      destruct rest as [|f1 rest]; [discriminate|].
      cbn [Py.index nth_error res_bind].
      destruct (split_head ":" f1) as [k2 [ps ->]].
      cbn [Py.index nth_error res_bind].
      repeat match goal with
      | |- context [if ?b then _ else _] => destruct b
      end;
      rewrite ?index_cons;
      try (destruct ps as [|p ps]; cbn [Py.index nth_error res_bind];
           [|destruct (Py.int 10 (Py.strip p)); cbn [res_bind]]);
      intros Hm; first [discriminate Hm | injection Hm as Hm; subst m];
      cbn; repeat split; try (intros; discriminate); eauto.
    + intros [= <-]. cbn. repeat split; eauto.
  - rewrite parse_message_no_sentinel by assumption.
    intros [= <-]. cbn. repeat split; eauto.
Qed.

(** Whatever the line, a message that leaves the decoder carries data
    exactly when its type is [DISTANCE] or [BATTERY], has no ID when its
    type is [OTHER], and carries the stripped line if that starts with the
    sentinel and the line as received otherwise. *)
Theorem decode_output_shape (line : string) (m : Message.t) :
  parse_message line = Some m ->
  (match Message.msg_type m with
   | DISTANCE | BATTERY => exists d, Message.data m = Some d
   | DISCONNECTED | OTHER => Message.data m = None
   end)
  /\ (Message.msg_type m = OTHER -> Message.esl_id m = None)
  /\ Message.content m = (if sentinel line then Py.strip line else line).
Proof. exact (parse_message_shape line m). Qed.

Lemma decode_output_shape_witness :
  (exists d, Message.data
               (Message.Build DISTANCE "#[ESL_ID:zz][DISTANCE:12]" None (Some 12))
             = Some d)
  /\ (DISTANCE = OTHER -> @None string = None)
  /\ "#[ESL_ID:zz][DISTANCE:12]" = "#[ESL_ID:zz][DISTANCE:12]".
Proof.
  exact (decode_output_shape "#[ESL_ID:zz][DISTANCE:12]"
           (Message.Build DISTANCE "#[ESL_ID:zz][DISTANCE:12]" None (Some 12))
           eq_refl).
Defined.

End DecoderTyped.

(** ** Strings: strip, split and the field scan *)

Section Strings.

Lemma append_cons (c : ascii) (s t : string) :
  String c s ++ t = String c (s ++ t).
Proof. reflexivity. Qed.

Lemma append_nil (t : string) : EmptyString ++ t = t.
Proof. reflexivity. Qed.

Lemma append_not_empty (s t : string) :
  t <> EmptyString -> s ++ t <> EmptyString.
Proof. destruct s; [rewrite append_nil; auto|rewrite append_cons; discriminate]. Qed.

Lemma rstrip_app (sp : ascii -> bool) (s t : string) :
  Py.rstrip_with sp t = t -> t <> EmptyString ->
  Py.rstrip_with sp (s ++ t) = s ++ t.
Proof.
  intros Ht Hne. induction s as [|c s IH].
  - exact Ht.
  - rewrite append_cons. cbn [Py.rstrip_with]. rewrite IH.
    pose proof (append_not_empty s t Hne) as H.
    destruct (s ++ t); [contradiction|reflexivity].
Qed.

Lemma until_close_app (f rest : string) :
  lacks "]" f = true ->
  Py.until_close (f ++ String "]" rest) = Some (f, rest).
Proof.
  induction f as [|c f IH]; intros H.
  - reflexivity.
  - rewrite append_cons. cbn [Py.until_close].
    cbn [lacks Py.all_chars] in H. apply andb_true_iff in H as [Hc Hf].
    apply negb_true_iff in Hc. rewrite Hc, (IH Hf). reflexivity.
Qed.

Lemma until_close_length (s f rest : string) :
  Py.until_close s = Some (f, rest) ->
  String.length s = S (String.length f + String.length rest).
Proof.
  revert f. induction s as [|c s IH]; cbn [Py.until_close]; intros f H.
  - discriminate.
  - destruct (Ascii.eqb c "]").
    + injection H as <- <-. reflexivity.
    + destruct (Py.until_close s) as [[f' rest']|]; [|discriminate].
      injection H as <- <-. cbn. rewrite (IH f' eq_refl). reflexivity.
Qed.

(** Any two fuels of at least the length of the text give the same
    fields. *)
Lemma findall_fuel_eq (fuel1 : nat) :
  forall s fuel2,
    (String.length s <= fuel1)%nat -> (String.length s <= fuel2)%nat ->
    Py.findall_fields_from fuel1 s = Py.findall_fields_from fuel2 s.
Proof.
  induction fuel1 as [|fuel1 IH]; intros s fuel2 H1 H2.
  - destruct s; [destruct fuel2; reflexivity|cbn in H1; lia].
  - destruct s as [|c s]; [destruct fuel2; reflexivity|].
    destruct fuel2 as [|fuel2]; [cbn in H2; lia|].
    cbn [String.length Py.findall_fields_from] in *.
    destruct (Ascii.eqb c "[").
    + destruct (Py.until_close s) as [[f rest]|] eqn:E; [|reflexivity].
      apply until_close_length in E.
      f_equal. apply IH; lia.
    + apply IH; lia.
Qed.

Lemma findall_skip (c : ascii) (s : string) :
  Ascii.eqb c "[" = false ->
  Py.findall_fields (String c s) = Py.findall_fields s.
Proof.
  intros H. unfold Py.findall_fields.
  cbn [String.length Py.findall_fields_from]. rewrite H. reflexivity.
Qed.

Lemma findall_field (f rest : string) :
  lacks "]" f = true ->
  Py.findall_fields (String "[" (f ++ String "]" rest))
  = f :: Py.findall_fields rest.
Proof.
  intros H. unfold Py.findall_fields.
  cbn [String.length Py.findall_fields_from Ascii.eqb Bool.eqb].
  pose proof (until_close_length _ _ _ (until_close_app f rest H)) as Hl.
  rewrite (until_close_app _ _ H). f_equal.
  apply findall_fuel_eq; lia.
Qed.

(** The field scan undoes the bracketing: from fields without a closing
    bracket, written one after the other between brackets, it gives back
    the fields, whatever else they contain. *)
Theorem findall_bracketed (fields : list string) :
  Forall (fun f => lacks "]" f = true) fields ->
  Py.findall_fields (bracketed fields) = fields.
Proof.
  induction 1 as [|f fields Hf _ IH]; cbn [bracketed].
  - reflexivity.
  - rewrite (findall_field _ _ Hf), IH. reflexivity.
Qed.

Lemma findall_bracketed_witness :
  Py.findall_fields "[ESL_ID:0A][a[b:c][]" = ["ESL_ID:0A"; "a[b:c"; ""].
Proof.
  apply (findall_bracketed ["ESL_ID:0A"; "a[b:c"; ""]).
  repeat constructor.
Defined.

Lemma split_nosep (sep : ascii) (s : string) :
  lacks sep s = true -> Py.split sep s = [s].
Proof.
  induction s as [|c s IH]; cbn [Py.split lacks Py.all_chars]; intros H.
  - reflexivity.
  - apply andb_true_iff in H as [Hc Hs]. apply negb_true_iff in Hc.
    rewrite Hc, (IH Hs). reflexivity.
Qed.

Lemma split_app (sep : ascii) (k v : string) :
  lacks sep k = true ->
  Py.split sep (k ++ String sep v) = k :: Py.split sep v.
Proof.
  induction k as [|c k IH]; intros H.
  - rewrite append_nil. cbn [Py.split]. rewrite Ascii.eqb_refl. reflexivity.
  - rewrite append_cons. cbn [Py.split].
    cbn [lacks Py.all_chars] in H.
    apply andb_true_iff in H as [Hc Hk]. apply negb_true_iff in Hc.
    rewrite Hc, (IH Hk). reflexivity.
Qed.

Lemma lacks_app (x : ascii) (s t : string) :
  lacks x s = true -> lacks x t = true -> lacks x (s ++ t) = true.
Proof.
  intros Hs Ht. induction s as [|c s IH].
  - exact Ht.
  - rewrite append_cons. cbn [lacks Py.all_chars] in *.
    apply andb_true_iff in Hs as [Hc Hs]. rewrite Hc. exact (IH Hs).
Qed.

End Strings.

(** ** Decoder: the wire format *)

Section Wire.

Import Parser.

Lemma rstrip_fixed_app (sp : ascii -> bool) (s t : string) :
  Py.rstrip_with sp t = t /\ t <> EmptyString ->
  Py.rstrip_with sp (s ++ t) = s ++ t /\ s ++ t <> EmptyString.
Proof.
  intros [Ht Hne]. split; [apply rstrip_app; assumption|].
  apply append_not_empty, Hne.
Qed.

(** A line made of the sentinel and two bracketed fields: stripping
    changes nothing, and the scan finds the two fields. *)
Lemma wire_fields (a b : string) :
  lacks "]" a = true -> lacks "]" b = true ->
  let line := "#[" ++ a ++ "][" ++ b ++ "]" in
  Py.strip line = line /\ sentinel line = true /\ fields_of line = [a; b].
Proof.
  intros Ha Hb line.
  assert (Hstrip : Py.strip line = line).
  { unfold Py.strip.
    change (Py.lstrip_with Py.isspace line) with line.
    apply (rstrip_fixed_app _ "#["), (rstrip_fixed_app _ a),
          (rstrip_fixed_app _ "]["), (rstrip_fixed_app _ b).
    split; [reflexivity|discriminate]. }
  split; [exact Hstrip|]. split.
  - unfold sentinel. rewrite Hstrip. reflexivity.
  - unfold fields_of. rewrite Hstrip.
    change (Py.tail line)
      with (String "[" (a ++ String "]" (String "[" (b ++ String "]" "")))).
    rewrite (findall_field _ _ Ha), (findall_field _ _ Hb). reflexivity.
Qed.

(** The three telemetry lines of the protocol.  For an ID text that reads
    as the hexadecimal number [n] and a payload text that reads as the
    integer [d], neither containing a colon or a closing bracket, the
    distance, battery and disconnection lines decode to the typed message
    with the canonical form of [n], the value [d] and the line itself as
    content. *)
Theorem decode_wire (i p : string) (n d : Z) :
  lacks ":" i = true -> lacks "]" i = true ->
  lacks ":" p = true -> lacks "]" p = true ->
  Py.int 16 (Py.strip i) = Ok n ->
  Py.int 10 (Py.strip p) = Ok d ->
  parse_message ("#[ESL_ID:" ++ i ++ "][DISTANCE:" ++ p ++ "]")
  = Some (Message.Build DISTANCE
            ("#[ESL_ID:" ++ i ++ "][DISTANCE:" ++ p ++ "]")
            (Some (Py.format_04X n)) (Some d))
  /\ parse_message ("#[ESL_ID:" ++ i ++ "][BATTERY:" ++ p ++ "]")
     = Some (Message.Build BATTERY
               ("#[ESL_ID:" ++ i ++ "][BATTERY:" ++ p ++ "]")
               (Some (Py.format_04X n)) (Some d))
  /\ parse_message ("#[ESL_ID:" ++ i ++ "][TAG DISCONNECTED]")
     = Some (Message.Build DISCONNECTED
               ("#[ESL_ID:" ++ i ++ "][TAG DISCONNECTED]")
               (Some (Py.format_04X n)) None).
Proof.
  intros Hci Hbi Hcp Hbp Hid Hd.
  assert (Ha : lacks "]" ("ESL_ID:" ++ i) = true)
    by (apply (lacks_app _ "ESL_ID:"); [reflexivity|exact Hbi]).
  assert (Hsa : Py.split ":" ("ESL_ID:" ++ i) = ["ESL_ID"; i]).
  { change ("ESL_ID:" ++ i) with ("ESL_ID" ++ String ":" i).
    rewrite split_app by reflexivity. rewrite (split_nosep _ _ Hci).
    reflexivity. }
  assert (Hkey : forall key, lacks "]" key = true -> lacks ":" key = true ->
            lacks "]" (key ++ String ":" p) = true
            /\ Py.split ":" (key ++ String ":" p) = [key; p]).
  { intros key Hk1 Hk2. split.
    - apply lacks_app; [exact Hk1|].
      cbn [lacks Py.all_chars]. exact Hbp.
    - rewrite (split_app _ _ _ Hk2), (split_nosep _ _ Hcp). reflexivity. }
  split; [|split].
  - destruct (Hkey "DISTANCE" eq_refl eq_refl) as [Hb Hsb].
    destruct (wire_fields _ _ Ha Hb) as [Hstrip [Hs Hf]].
    change ("#[ESL_ID:" ++ i ++ "][DISTANCE:" ++ p ++ "]")
      with ("#[" ++ ("ESL_ID:" ++ i) ++ "][" ++ ("DISTANCE" ++ String ":" p)
            ++ "]").
    rewrite (decode_two_fields _ _ _ _ _ _ _ _ _ Hs Hf Hsa eq_refl Hsb).
    cbv zeta. change (Py.upper (Py.strip "DISTANCE")) with "DISTANCE".
    cbn [String.eqb Ascii.eqb Bool.eqb Py.index nth_error res_bind].
    rewrite Hd, Hstrip. cbn [res_bind].
    rewrite (init_readable _ _ _ _ _ Hid). reflexivity.
  - destruct (Hkey "BATTERY" eq_refl eq_refl) as [Hb Hsb].
    destruct (wire_fields _ _ Ha Hb) as [Hstrip [Hs Hf]].
    change ("#[ESL_ID:" ++ i ++ "][BATTERY:" ++ p ++ "]")
      with ("#[" ++ ("ESL_ID:" ++ i) ++ "][" ++ ("BATTERY" ++ String ":" p)
            ++ "]").
    rewrite (decode_two_fields _ _ _ _ _ _ _ _ _ Hs Hf Hsa eq_refl Hsb).
    cbv zeta. change (Py.upper (Py.strip "BATTERY")) with "BATTERY".
    cbn [String.eqb Ascii.eqb Bool.eqb Py.index nth_error res_bind].
    rewrite Hd, Hstrip. cbn [res_bind].
    rewrite (init_readable _ _ _ _ _ Hid). reflexivity.
  - destruct (wire_fields ("ESL_ID:" ++ i) "TAG DISCONNECTED" Ha eq_refl)
      as [Hstrip [Hs Hf]].
    change ("#[ESL_ID:" ++ i ++ "][TAG DISCONNECTED]")
      with ("#[" ++ ("ESL_ID:" ++ i) ++ "][" ++ "TAG DISCONNECTED" ++ "]").
    rewrite (decode_two_fields _ _ "TAG DISCONNECTED" _ _ "TAG DISCONNECTED"
               _ _ [] Hs Hf Hsa eq_refl eq_refl).
    cbv zeta.
    change (Py.upper (Py.strip "TAG DISCONNECTED")) with "TAG DISCONNECTED".
    cbn [String.eqb Ascii.eqb Bool.eqb]. rewrite Hstrip.
    rewrite (init_readable _ _ _ _ _ Hid). reflexivity.
Qed.

Lemma decode_wire_witness :
  parse_message ("#[ESL_ID:" ++ "0a" ++ "][DISTANCE:" ++ "120" ++ "]")
  = Some (Message.Build DISTANCE
            ("#[ESL_ID:" ++ "0a" ++ "][DISTANCE:" ++ "120" ++ "]")
            (Some (Py.format_04X 10)) (Some 120)).
Proof.
  apply (decode_wire "0a" "120" 10 120); reflexivity.
Defined.

End Wire.

(** ** Canonical ID: reading back what the format wrote *)

Section CanonicalRoundTrip.

Lemma hex_digit_facts (d : Z) :
  0 <= d < 16 ->
  Ascii.eqb (Py.hex_digit d) "_" = false
  /\ Ascii.eqb (Py.hex_digit d) "-" = false
  /\ Ascii.eqb (Py.hex_digit d) "+" = false
  /\ Ascii.eqb (Py.hex_digit d) "x" = false
  /\ Ascii.eqb (Py.hex_digit d) "X" = false
  /\ Py.int_space (Py.hex_digit d) = false
  /\ Py.digit_value (Py.hex_digit d) = Some d.
Proof.
  intros Hd.
  assert (H : d = 0 \/ d = 1 \/ d = 2 \/ d = 3 \/ d = 4 \/ d = 5 \/ d = 6
              \/ d = 7 \/ d = 8 \/ d = 9 \/ d = 10 \/ d = 11 \/ d = 12
              \/ d = 13 \/ d = 14 \/ d = 15) by lia.
  repeat destruct H as [H|H]; subst d; vm_compute; repeat split.
Qed.

Lemma hex_string_app (a b : list Z) :
  hex_string (a ++ b)%list = hex_string a ++ hex_string b.
Proof.
  induction a as [|d a IH]; [reflexivity|].
  cbn [app hex_string]. rewrite IH. reflexivity.
Qed.

Lemma digits_value_app (acc : Z) (a b : list Z) :
  digits_value acc (a ++ b)%list = digits_value (digits_value acc a) b.
Proof.
  revert acc. induction a as [|d a IH]; intros acc; [reflexivity|].
  cbn [app digits_value]. apply IH.
Qed.

Lemma digits_value_zeros (k : nat) (ds : list Z) :
  digits_value 0 (repeat 0 k ++ ds)%list = digits_value 0 ds.
Proof.
  induction k as [|k IH]; [reflexivity|].
  cbn [repeat app digits_value]. exact IH.
Qed.

Lemma zeros_hex_string (k : nat) : Py.zeros k = hex_string (repeat 0 k).
Proof.
  induction k as [|k IH]; [reflexivity|].
  cbn [Py.zeros repeat hex_string]. rewrite IH. reflexivity.
Qed.

Lemma scan_hex_string (ds : list Z) :
  Forall (fun d => 0 <= d < 16) ds ->
  forall acc n,
    Py.scan_digits 16 false acc n (hex_string ds)
    = Some (digits_value acc ds, (n + length ds)%nat, EmptyString).
Proof.
  induction 1 as [|d ds Hd _ IH]; intros acc n.
  - cbn. rewrite Nat.add_0_r. reflexivity.
  - cbv beta in Hd. destruct (hex_digit_facts d Hd) as [Hu [_ [_ [_ [_ [_ Hv]]]]]].
    cbn [hex_string Py.scan_digits length]. rewrite Hu, Hv.
    destruct (Z.ltb_spec d 16); [|lia].
    rewrite IH. cbn [digits_value].
    replace (S n + length ds)%nat with (n + S (length ds))%nat by lia.
    reflexivity.
Qed.

(** [int(s, 16)] on a non-empty run of upper-case hex digits, with or
    without a minus sign in front. *)
Lemma int_hex_string (ds : list Z) :
  ds <> [] -> Forall (fun d => 0 <= d < 16) ds ->
  Py.int 16 (hex_string ds) = Ok (digits_value 0 ds)
  /\ Py.int 16 (String "-" (hex_string ds)) = Ok (- digits_value 0 ds).
Proof.
  intros Hne Hall.
  assert (Hbody : forall neg : bool,
            (let s2 := Py.take_prefix 16 (hex_string ds) in
             if Py.startswith s2 "_" then Raise ValueError
             else
               match Py.scan_digits 16 false 0 0 s2 with
               | Some (v, n, rest) =>
                   if (n =? 0)%nat then Raise ValueError
                   else if negb (Py.all_chars Py.int_space rest)
                        then Raise ValueError
                   else if (16 =? 10) && (Py.int_max_str_digits <? n)%nat
                        then Raise ValueError
                   else Ok (if neg then - v else v)
               | None => Raise ValueError
               end)
            = Ok (if neg then - digits_value 0 ds
                  else digits_value 0 ds)).
  { intros neg.
    assert (Hpre : Py.take_prefix 16 (hex_string ds) = hex_string ds).
    { destruct ds as [|d0 [|d1 ds']]; [contradiction|reflexivity|].
      inversion Hall as [|? ? _ Hall']. inversion Hall' as [|? ? Hd1 _].
      destruct (hex_digit_facts d1 Hd1) as [_ [_ [_ [Hx [HX _]]]]].
      cbn [hex_string Py.take_prefix]. rewrite Hx, HX.
      rewrite andb_false_r. reflexivity. }
    cbv zeta. rewrite Hpre.
    assert (Hus : Py.startswith (hex_string ds) "_" = false).
    { destruct ds as [|d0 ds']; [contradiction|].
      inversion Hall as [|? ? Hd0 _].
      cbn [hex_string Py.startswith].
      apply (hex_digit_facts d0 Hd0). }
    rewrite Hus, (scan_hex_string ds Hall).
    destruct ds as [|d0 ds']; [contradiction|]. reflexivity. }
  destruct ds as [|d0 ds']; [contradiction|].
  inversion Hall as [|? ? Hd0 _]. subst.
  destruct (hex_digit_facts d0 Hd0) as [_ [Hm [Hp [_ [_ [Hsp _]]]]]].
  split.
  - unfold Py.int.
    cbn [hex_string Py.lstrip_with]. rewrite Hsp.
    cbn [Py.take_sign]. rewrite Hm, Hp.
    exact (Hbody false).
  - unfold Py.int.
    cbn [Py.lstrip_with]. change (Py.int_space "-") with false.
    cbn [Py.take_sign Ascii.eqb Bool.eqb].
    exact (Hbody true).
Qed.

Lemma append_assoc (a b c : string) : (a ++ b) ++ c = a ++ (b ++ c).
Proof.
  induction a as [|x a IH]; [reflexivity|].
  rewrite !append_cons, IH. reflexivity.
Qed.

Lemma append_empty (a : string) : a ++ EmptyString = a.
Proof.
  induction a as [|x a IH]; [reflexivity|].
  rewrite append_cons, IH. reflexivity.
Qed.

Lemma hex_digits_step (fuel : nat) (v : Z) (acc : string) :
  Py.hex_digits (S fuel) v acc
  = if v / 16 =? 0 then String (Py.hex_digit (v mod 16)) acc
    else Py.hex_digits fuel (v / 16) (String (Py.hex_digit (v mod 16)) acc).
Proof. reflexivity. Qed.

(** The digits [hex_digits] puts in front of [acc]. *)
Lemma hex_digits_spec (fuel : nat) :
  forall v acc,
    0 <= v < 16 ^ Z.of_nat (S fuel) ->
    exists ds,
      Py.hex_digits (S fuel) v acc = hex_string ds ++ acc
      /\ ds <> [] /\ Forall (fun d => 0 <= d < 16) ds
      /\ digits_value 0 ds = v.
Proof.
  induction fuel as [|fuel IH]; intros v acc Hv.
  - exists [v]. rewrite hex_digits_step.
    change (16 ^ Z.of_nat 1) with 16 in Hv.
    rewrite (Z.mod_small v 16) by lia. rewrite (Z.div_small v 16) by lia.
    cbn. repeat split; [discriminate|].
    constructor; [lia|constructor].
  - rewrite hex_digits_step.
    assert (Hm : 0 <= v mod 16 < 16) by (apply Z.mod_pos_bound; lia).
    destruct (Z.eqb_spec (v / 16) 0) as [Hz|Hnz].
    + exists [v mod 16]. cbn. repeat split; [discriminate| |].
      * constructor; [lia|constructor].
      * rewrite (Z.div_mod v 16) at 2 by lia. lia.
    + assert (Hq : 0 <= v / 16 < 16 ^ Z.of_nat (S fuel)).
      { split; [apply Z.div_pos; lia|].
        apply Z.div_lt_upper_bound; [lia|].
        rewrite <- Z.pow_succ_r by lia.
        replace (Z.succ (Z.of_nat (S fuel))) with (Z.of_nat (S (S fuel)))
          by lia.
        lia. }
      destruct (IH (v / 16) (String (Py.hex_digit (v mod 16)) acc) Hq)
        as [ds [Hrun [Hne [Hall Hval]]]].
      exists (ds ++ [v mod 16])%list.
      repeat split.
      * rewrite Hrun, hex_string_app, append_assoc. reflexivity.
      * destruct ds; discriminate.
      * apply Forall_app. split; [exact Hall|].
        constructor; [lia|constructor].
      * rewrite digits_value_app, Hval. cbn [digits_value].
        rewrite (Z.div_mod v 16) at 3 by lia. lia.
Qed.

Lemma hex_spec (v : Z) :
  0 <= v ->
  exists ds,
    Py.hex v = hex_string ds
    /\ ds <> [] /\ Forall (fun d => 0 <= d < 16) ds
    /\ digits_value 0 ds = v.
Proof.
  intros Hv. unfold Py.hex.
  destruct (hex_digits_spec (Z.to_nat (Z.log2 v)) v EmptyString)
    as [ds [Hrun Hrest]].
  - split; [exact Hv|].
    destruct (Z.eq_dec v 0) as [->|Hne]; [cbn; lia|].
    assert (Hlog : v < 2 ^ (Z.log2 v + 1))
      by (replace (Z.log2 v + 1) with (Z.succ (Z.log2 v)) by lia;
          apply Z.log2_spec; lia).
    pose proof (Z.log2_nonneg v) as Hnn.
    rewrite Nat2Z.inj_succ, Z2Nat.id by lia.
    assert (2 ^ Z.succ (Z.log2 v) <= 16 ^ Z.succ (Z.log2 v)).
    { apply Z.pow_le_mono_l. lia. }
    replace (Z.log2 v + 1) with (Z.succ (Z.log2 v)) in Hlog by lia. lia.
  - exists ds. split; [|exact Hrest].
    rewrite Hrun. apply append_empty.
Qed.

(** Reading a formatted ID back as hexadecimal gives the number. *)
Lemma int_format_04X (v : Z) : Py.int 16 (Py.format_04X v) = Ok v.
Proof.
  assert (Hfill : forall w s ds, s = hex_string ds ->
            Py.zfill w s
            = hex_string (repeat 0 (w - String.length s) ++ ds)%list).
  { intros w s ds ->. unfold Py.zfill.
    rewrite hex_string_app, zeros_hex_string. reflexivity. }
  assert (Hzero : forall k ds, Forall (fun d => 0 <= d < 16) ds ->
            Forall (fun d => 0 <= d < 16) (repeat 0 k ++ ds)%list).
  { intros k ds H. apply Forall_app. split; [|exact H].
    induction k; constructor; [lia|assumption]. }
  unfold Py.format_04X. destruct (Z.ltb_spec v 0) as [Hneg|Hpos].
  - destruct (hex_spec (- v)) as [ds [Hhex [Hne [Hall Hval]]]]; [lia|].
    rewrite (Hfill _ _ ds Hhex).
    destruct (int_hex_string (repeat 0 (3 - String.length (Py.hex (- v))) ++ ds)%list)
      as [_ Hint].
    + destruct (repeat 0 _); [exact Hne|discriminate].
    + apply Hzero, Hall.
    + rewrite Hint, digits_value_zeros, Hval. f_equal. lia.
  - destruct (hex_spec v Hpos) as [ds [Hhex [Hne [Hall Hval]]]].
    rewrite (Hfill _ _ ds Hhex).
    destruct (int_hex_string (repeat 0 (4 - String.length (Py.hex v)) ++ ds)%list)
      as [Hint _].
    + destruct (repeat 0 _); [exact Hne|discriminate].
    + apply Hzero, Hall.
    + rewrite Hint, digits_value_zeros, Hval. reflexivity.
Qed.

(** Canonicalization is idempotent: an ID that [_convert_esl_id] returned
    is converted to itself, whatever spelling it came from. *)
Theorem convert_esl_id_idempotent (s id : string) :
  Message._convert_esl_id (Some s) = Some id ->
  Message._convert_esl_id (Some id) = Some id.
Proof.
  rewrite convert_esl_id_spec.
  destruct (Py.int 16 s) as [v|]; [|discriminate].
  intros [= <-]. rewrite convert_esl_id_spec, int_format_04X. reflexivity.
Qed.

Lemma convert_esl_id_idempotent_witness :
  Message._convert_esl_id (Some "000A") = Some "000A".
Proof.
  apply (convert_esl_id_idempotent " 0x_a "). reflexivity.
Defined.

(** Two readable spellings get the same canonical ID exactly when they
    denote the same number. *)
Theorem convert_esl_id_same_number (a b : string) (va vb : Z) :
  Py.int 16 a = Ok va -> Py.int 16 b = Ok vb ->
  (Message._convert_esl_id (Some a) = Message._convert_esl_id (Some b)
   <-> va = vb).
Proof.
  intros Ha Hb. rewrite !convert_esl_id_spec, Ha, Hb. split.
  - intros [= H].
    pose proof (int_format_04X va) as H1. rewrite H, int_format_04X in H1.
    injection H1 as ->. reflexivity.
  - intros ->. reflexivity.
Qed.

Lemma convert_esl_id_same_number_witness :
  (Message._convert_esl_id (Some "0a")
   = Message._convert_esl_id (Some "+0X00_0A") <-> 10 = 10)
  /\ (Message._convert_esl_id (Some "0a")
      = Message._convert_esl_id (Some "a0") <-> 10 = 160).
Proof.
  split.
  - apply (convert_esl_id_same_number "0a" "+0X00_0A" 10 10); reflexivity.
  - apply (convert_esl_id_same_number "0a" "a0" 10 160); reflexivity.
Defined.

End CanonicalRoundTrip.

(** ** Rail: count bands, end points, composition of updates *)

Section RailBands.

Import RailWidget.

Lemma n_items_spec (r : t) (d : Z) :
  item_length r <> 0 ->
  n_items r d
  = Ok (Py.clamp ((rail_empty_distance r - d + tolerance r) / item_length r)
                 0 (max_items r)).
Proof.
  intros Hl. unfold n_items. rewrite floordiv_nonzero by assumption.
  reflexivity.
Qed.

Lemma div_band (x l k : Z) :
  0 < l -> (x / l = k <-> k * l <= x < (k + 1) * l).
Proof.
  intros Hl. split.
  - intros <-. pose proof (Z.mul_div_le x l Hl).
    pose proof (Z.mul_succ_div_gt x l Hl). lia.
  - intros H. symmetry. apply (Z.div_unique x l k (x - k * l)); lia.
Qed.

(** The displayed count as a function of the reading, in full.  With a
    positive item length and a positive [max_items], the count is [k]
    exactly when [empty - d + tolerance] lies in the [k]-th band of width
    [item_length]; the lowest band is open below (any longer reading
    shows 0) and the highest is open above (any shorter reading shows
    [max_items]). *)
Theorem n_items_bands (r : t) (d k : Z) :
  0 < item_length r ->
  0 < max_items r ->
  0 <= k <= max_items r ->
  let x := rail_empty_distance r - d + tolerance r in
  n_items r d = Ok k
  <-> (k = 0 \/ k * item_length r <= x)
      /\ (k = max_items r \/ x < (k + 1) * item_length r).
Proof.
  intros Hl Hm Hk x. rewrite n_items_spec by lia. fold x.
  pose proof (div_band x (item_length r) (x / item_length r) Hl) as Hq.
  destruct Hq as [Hq _]. specialize (Hq eq_refl).
  unfold Py.clamp. split.
  - intros [= H]. nia.
  - intros [H1 H2]. f_equal. nia.
Qed.

Lemma n_items_bands_witness :
  let r := Build "000A" "mac" 500 100 40 10 10 "img" None None in
  n_items r 120 = Ok 9
  <-> (9 = 0 \/ 9 * 40 <= 500 - 120 + 10)
      /\ (9 = 10 \/ 500 - 120 + 10 < (9 + 1) * 40).
Proof.
  apply (n_items_bands (Build "000A" "mac" 500 100 40 10 10 "img" None None)
                       120 9); cbn; lia.
Defined.

(** What the constructor stores for an item length below [2^53]. *)
Lemma init_fields (e f l : Z) (id mac img : string) (r : t) :
  0 < l < 2 ^ 53 ->
  __init__ e f l id mac img = Ok r ->
  r = Build id mac e f l (l / 4) ((e - f) / l) img None None.
Proof.
  intros Hl. unfold __init__.
  rewrite int_quarter_exact by lia. cbn [res_bind].
  rewrite floordiv_nonzero by lia. cbn [res_bind].
  unfold _setup_ui. cbn [max_items].
  destruct (Qt.c_int ((e - f) / l)); [|discriminate]. cbn [res_bind].
  intros [= <-]. reflexivity.
Qed.

(** The two ends of the calibration.  On a rail built with
    [full <= empty] and an item length below [2^53], a reading at or
    below the full distance shows [max_items], and a reading at or beyond
    the empty distance shows 0. *)
Theorem rail_end_points (e f l : Z) (id mac img : string) (r : t) (d : Z) :
  0 < l < 2 ^ 53 ->
  f <= e ->
  __init__ e f l id mac img = Ok r ->
  (d <= f -> n_items r d = Ok (max_items r))
  /\ (e <= d -> n_items r d = Ok 0).
Proof.
  intros Hl Hfe Hr. apply init_fields in Hr; [|assumption]. subst r.
  rewrite n_items_spec by (cbn; lia). cbn.
  assert (Ht : 0 <= l / 4 < l).
  { split; [apply Z.div_pos; lia|].
    apply Z.div_lt_upper_bound; lia. }
  assert (Hm : 0 <= (e - f) / l) by (apply Z.div_pos; lia).
  pose proof (Z.mul_div_le (e - f) l ltac:(lia)) as Hmul.
  unfold Py.clamp. split; intros Hd; f_equal.
  - assert ((e - f) / l <= (e - d + l / 4) / l)
      by (apply Z.div_le_mono; lia).
    lia.
  - assert ((e - d + l / 4) / l <= 0).
    { apply Z.lt_succ_r. apply Z.div_lt_upper_bound; lia. }
    lia.
Qed.

Lemma rail_end_points_witness :
  exists r,
    __init__ 500 100 40 "000A" "mac" "img" = Ok r
    /\ n_items r 100 = Ok (max_items r)
    /\ n_items r 37 = Ok (max_items r)
    /\ n_items r 500 = Ok 0.
Proof.
  eexists. split; [reflexivity|].
  pose proof (fun d => rail_end_points 500 100 40 "000A" "mac" "img" _ d
                         ltac:(lia) ltac:(lia) eq_refl) as H.
  split; [|split].
  - apply (proj1 (H 100)). lia.
  - apply (proj1 (H 37)). lia.
  - apply (proj2 (H 500)). lia.
Defined.

(** Updates keep no history and do not interfere: after two readings the
    rail is as after the second alone, and a reading and a connection
    status can be applied in either order. *)
Theorem rail_updates_compose (r : t) (d1 d2 : Z) (b : bool) :
  item_length r <> 0 ->
  bind (update_distance d1) (fun _ => update_distance d2) r
  = update_distance d2 r
  /\ bind (update_connection_status b) (fun _ => update_distance d2) r
     = bind (update_distance d2) (fun _ => update_connection_status b) r.
Proof.
  intros Hl. unfold bind.
  rewrite (update_distance_spec r d1 Hl), (update_distance_spec r d2 Hl).
  split.
  - rewrite update_distance_spec by exact Hl. reflexivity.
  - unfold update_connection_status, modify.
    rewrite update_distance_spec by exact Hl. reflexivity.
Qed.

Lemma rail_updates_compose_witness :
  let r := Build "000A" "mac" 500 100 40 10 10 "img" None None in
  bind (update_distance 300) (fun _ => update_distance 120) r
  = update_distance 120 r
  /\ bind (update_connection_status false) (fun _ => update_distance 120) r
     = bind (update_distance 120) (fun _ => update_connection_status false) r.
Proof.
  apply (rail_updates_compose
           (Build "000A" "mac" 500 100 40 10 10 "img" None None) 300 120 false).
  discriminate.
Defined.

End RailBands.

(** ** Shelf: dispatch of typed messages, and what dispatch never changes *)

Section ShelfDispatch.

Import ShelfWidget.

Lemma set_rails_insert_twice (id : string) (r1 r2 : RailWidget.t) (self : t) :
  set_rails (insert id r2) (set_rails (insert id r1) self)
  = set_rails (insert id r2) self.
Proof.
  unfold set_rails. cbn [rails]. rewrite insert_insert_eq. reflexivity.
Qed.

Lemma on_rail_status (id : string) (b : bool) (self : t)
    (rail : RailWidget.t) :
  rails self !! id = Some rail ->
  on_rail id (RailWidget.update_connection_status b) self
  = ([], set_rails (insert id (RailWidget.set_color
                                 (if b then "#FFFFFF" else "#D32F2F") rail))
                   self, Ok tt).
Proof. intros H. unfold on_rail. rewrite H. reflexivity. Qed.

(** [update_shelf] on a message for a rail of the shelf, by type. *)
Lemma update_shelf_known (self : t) (message : Message.t) (id : string)
    (rail : RailWidget.t) :
  Message.esl_id message = Some id ->
  rails self !! id = Some rail ->
  update_shelf message self
  = match Message.msg_type message with
    | DISTANCE =>
        bind (on_rail id (RailWidget.update_connection_status true))
          (fun _ =>
             bind (lift (match Message.data message with
                         | Some d => Ok d
                         | None => Raise TypeError
                         end))
               (fun distance =>
                  on_rail id (RailWidget.update_distance distance))) self
    | DISCONNECTED =>
        on_rail id (RailWidget.update_connection_status false) self
    | BATTERY => on_rail id (RailWidget.update_connection_status true) self
    | OTHER => ([], self, Ok tt)
    end.
Proof.
  intros Hid Hrail. unfold update_shelf. unfold bind at 1. unfold get at 1.
  cbv beta iota. rewrite Hid, (is_rail_valid_true _ _ _ Hrail).
  destruct (Message.msg_type message).
  - destruct (bind _ _ self) as [[tr s] r]. reflexivity.
  - destruct (on_rail _ _ self) as [[tr s] r]. reflexivity.
  - destruct (on_rail _ _ self) as [[tr s] r]. reflexivity.
  - reflexivity.
Qed.

(** A [BATTERY] message for a rail of the shelf marks that rail as
    connected and changes nothing else: the item count stays, the other
    rails stay, nothing is logged or raised. *)
Theorem update_shelf_battery (self : t) (message : Message.t) (id : string)
    (rail : RailWidget.t) :
  Message.msg_type message = BATTERY ->
  Message.esl_id message = Some id ->
  rails self !! id = Some rail ->
  exists rail',
    update_shelf message self = ([], set_rails (insert id rail') self, Ok tt)
    /\ RailWidget.connected rail' = Some true
    /\ RailWidget.item_count rail' = RailWidget.item_count rail
    /\ static_of rail' = static_of rail
    /\ forall id', id' <> id ->
         rails (set_rails (insert id rail') self) !! id' = rails self !! id'.
Proof.
  intros Hty Hid Hrail.
  exists (RailWidget.set_color "#FFFFFF" rail). split.
  - rewrite (update_shelf_known _ _ _ _ Hid Hrail), Hty.
    apply (on_rail_status id true), Hrail.
  - do 3 (split; [reflexivity|]).
    intros id' Hne. cbn [set_rails rails].
    apply lookup_insert_ne. congruence.
Qed.

Lemma update_shelf_battery_witness :
  let rail := RailWidget.Build "000A" "mac" 500 100 40 10 10 "img"
                               (Some 9) (Some "#D32F2F") in
  let self := Build {[ "000A" := rail ]} in
  exists rail',
    update_shelf (Message.__init__ BATTERY "#[ESL_ID:0a][BATTERY:87]"
                                   (Some "0a") (Some 87)) self
    = ([], set_rails (insert "000A" rail') self, Ok tt)
    /\ RailWidget.connected rail' = Some true
    /\ RailWidget.item_count rail' = Some 9
    /\ static_of rail' = static_of rail
    /\ forall id', id' <> "000A" ->
         rails (set_rails (insert "000A" rail') self) !! id' = rails self !! id'.
Proof.
  intros rail self.
  apply (update_shelf_battery self _ "000A" rail).
  - reflexivity.
  - reflexivity.
  - vm_compute. reflexivity.
Defined.

Lemma dispatch_distance_run (self : t) (message : Message.t) (id : string)
    (rail : RailWidget.t) (d : Z) :
  Message.msg_type message = DISTANCE ->
  Message.esl_id message = Some id ->
  Message.data message = Some d ->
  rails self !! id = Some rail ->
  RailWidget.item_length rail <> 0 ->
  update_shelf message self
  = ([], set_rails
           (insert id
              (RailWidget.set_item_count
                 (Py.clamp ((RailWidget.rail_empty_distance rail - d
                             + RailWidget.tolerance rail)
                            / RailWidget.item_length rail)
                           0 (RailWidget.max_items rail))
                 (RailWidget.set_color "#FFFFFF" rail)))
           self, Ok tt).
Proof.
  intros Hty Hid Hdata Hrail Hl.
  rewrite (update_shelf_known _ _ _ _ Hid Hrail), Hty, Hdata.
  unfold bind at 1.
  rewrite (on_rail_status id true self rail Hrail).
  unfold bind, lift. unfold on_rail at 1.
  cbn [set_rails rails]. rewrite lookup_insert_eq.
  rewrite update_distance_spec by exact Hl.
  rewrite set_rails_insert_twice. reflexivity.
Qed.

(** A [DISTANCE] message for a rail of the shelf marks that rail as
    connected and stores the count computed from the reading; the rail's
    identity and calibration and the other rails stay, nothing is logged
    or raised. *)
Theorem update_shelf_distance (self : t) (message : Message.t) (id : string)
    (rail : RailWidget.t) (d : Z) :
  Message.msg_type message = DISTANCE ->
  Message.esl_id message = Some id ->
  Message.data message = Some d ->
  rails self !! id = Some rail ->
  RailWidget.item_length rail <> 0 ->
  exists rail',
    update_shelf message self = ([], set_rails (insert id rail') self, Ok tt)
    /\ RailWidget.connected rail' = Some true
    /\ RailWidget.n_items rail d = Ok
         (Py.clamp ((RailWidget.rail_empty_distance rail - d
                     + RailWidget.tolerance rail)
                    / RailWidget.item_length rail)
                   0 (RailWidget.max_items rail))
    /\ RailWidget.item_count rail'
       = Some (Py.clamp ((RailWidget.rail_empty_distance rail - d
                          + RailWidget.tolerance rail)
                         / RailWidget.item_length rail)
                        0 (RailWidget.max_items rail))
    /\ static_of rail' = static_of rail
    /\ forall id', id' <> id ->
         rails (set_rails (insert id rail') self) !! id' = rails self !! id'.
Proof.
  intros Hty Hid Hdata Hrail Hl.
  eexists. split.
  - exact (dispatch_distance_run _ _ _ _ _ Hty Hid Hdata Hrail Hl).
  - split; [reflexivity|]. split; [apply n_items_spec, Hl|].
    do 2 (split; [reflexivity|]).
    intros id' Hne. cbn [set_rails rails].
    apply lookup_insert_ne. congruence.
Qed.

Lemma update_shelf_distance_witness :
  let rail := RailWidget.Build "000A" "mac" 500 100 40 10 10 "img"
                               None None in
  let self := Build {[ "000A" := rail ]} in
  exists rail',
    update_shelf (Message.__init__ DISTANCE "#[ESL_ID:0a][DISTANCE:120]"
                                   (Some "0a") (Some 120)) self
    = ([], set_rails (insert "000A" rail') self, Ok tt)
    /\ RailWidget.connected rail' = Some true
    /\ RailWidget.n_items rail 120 = Ok 9
    /\ RailWidget.item_count rail' = Some 9
    /\ static_of rail' = static_of rail
    /\ forall id', id' <> "000A" ->
         rails (set_rails (insert "000A" rail') self) !! id' = rails self !! id'.
Proof.
  intros rail self.
  apply (update_shelf_distance self _ "000A" rail 120).
  - reflexivity.
  - reflexivity.
  - reflexivity.
  - vm_compute. reflexivity.
  - discriminate.
Defined.

Lemma frame_refl (id : option string) (self : t) : frame id self self.
Proof. intros k. split; reflexivity. Qed.

Lemma frame_trans (id : option string) (s1 s2 s3 : t) :
  frame id s1 s2 -> frame id s2 s3 -> frame id s1 s3.
Proof.
  intros H12 H23 k. destruct (H12 k) as [Ha Hb], (H23 k) as [Hc Hd].
  split; [congruence|]. intros Hne. rewrite (Hd Hne). exact (Hb Hne).
Qed.

Lemma frame_dom (id : option string) (self self' : t) :
  frame id self self' -> dom (rails self') = dom (rails self).
Proof.
  intros H. apply set_eq. intros k. rewrite !elem_of_dom.
  destruct (H k) as [Hk _].
  destruct (rails self' !! k), (rails self !! k); cbn in Hk;
    try discriminate; split; intros [x Hx]; try discriminate Hx; eauto.
Qed.

(** A rail method that keeps the static part of the rail, run in place,
    keeps the frame. *)
Lemma on_rail_frame {A : Type} (id : string) (m : M RailWidget.t A)
    (self self' : t) (tr : list effect) (r : res A) :
  (forall rail tr' rail' r',
     m rail = (tr', rail', r') -> static_of rail' = static_of rail) ->
  on_rail id m self = (tr, self', r) ->
  frame (Some id) self self'.
Proof.
  intros Hm. unfold on_rail.
  destruct (rails self !! id) as [rail|] eqn:Hrail.
  - destruct (m rail) as [[tr' rail'] r'] eqn:Erun.
    intros [= _ <- _]. intros k. cbn [set_rails rails].
    destruct (decide (id = k)) as [->|Hne].
    + rewrite lookup_insert_eq, Hrail. cbn.
      rewrite (Hm _ _ _ _ Erun). split; [reflexivity|congruence].
    + rewrite lookup_insert_ne by exact Hne. split; reflexivity.
  - intros [= _ <- _]. apply frame_refl.
Qed.

Lemma status_static (b : bool) (rail : RailWidget.t) (tr : list effect)
    (rail' : RailWidget.t) (r : res unit) :
  RailWidget.update_connection_status b rail = (tr, rail', r) ->
  static_of rail' = static_of rail.
Proof. intros [= _ <- _]. reflexivity. Qed.

Lemma distance_static (d : Z) (rail : RailWidget.t) (tr : list effect)
    (rail' : RailWidget.t) (r : res unit) :
  RailWidget.update_distance d rail = (tr, rail', r) ->
  static_of rail' = static_of rail.
Proof.
  unfold RailWidget.update_distance, bind, get, lift, modify.
  destruct (RailWidget.n_items rail d); intros [= _ <- _]; reflexivity.
Qed.

(** Membership of the registry is fixed and calibration is read-only:
    whatever the message and whether or not the dispatch raises, the
    shelf afterwards has the same keys, every rail has kept its ID, MAC
    address, calibration and image, and every rail other than the one the
    message names is unchanged. *)
Theorem update_shelf_frame (self self' : t) (message : Message.t)
    (tr : list effect) (r : res unit) :
  update_shelf message self = (tr, self', r) ->
  dom (rails self') = dom (rails self)
  /\ frame (Message.esl_id message) self self'.
Proof.
  intros Hrun.
  assert (Hframe : frame (Message.esl_id message) self self').
  { destruct (Message.esl_id message) as [id|] eqn:Hid.
    - destruct (rails self !! id) as [rail|] eqn:Hrail.
      + rewrite (update_shelf_known _ _ _ _ Hid Hrail) in Hrun.
        destruct (Message.msg_type message).
        * unfold bind at 1 in Hrun.
          destruct (on_rail id (RailWidget.update_connection_status true) self)
            as [[tr1 s1] r1] eqn:E1.
          pose proof (on_rail_frame _ _ _ _ _ _ (status_static true) E1) as F1.
          destruct r1 as [[]|e]; [|injection Hrun as _ <- _; exact F1].
          unfold bind, lift in Hrun.
          destruct (Message.data message) as [d|].
          -- destruct (on_rail id (RailWidget.update_distance d) s1)
               as [[tr2 s2] r2] eqn:E2.
             pose proof (on_rail_frame _ _ _ _ _ _ (distance_static d) E2)
               as F2.
             injection Hrun as _ <- _. exact (frame_trans _ _ _ _ F1 F2).
          -- injection Hrun as _ <- _. exact F1.
        * exact (on_rail_frame _ _ _ _ _ _ (status_static true) Hrun).
        * exact (on_rail_frame _ _ _ _ _ _ (status_static false) Hrun).
        * injection Hrun as _ <- _. apply frame_refl.
      + unfold update_shelf, bind, get in Hrun.
        rewrite Hid, (is_rail_valid_false _ _ Hrail) in Hrun.
        injection Hrun as _ <- _. apply frame_refl.
    - unfold update_shelf, bind, get in Hrun. rewrite Hid in Hrun.
      injection Hrun as _ <- _. apply frame_refl. }
  split; [exact (frame_dom _ _ _ Hframe)|exact Hframe].
Qed.

Lemma update_shelf_frame_witness :
  let rail := RailWidget.Build "000A" "mac" 500 100 0 10 10 "img"
                               None None in
  let self := Build {[ "000A" := rail ]} in
  let self' := Build {[ "000A" := RailWidget.set_color "#FFFFFF" rail ]} in
  dom (rails self') = dom (rails self)
  /\ frame (Some "000A") self self'.
Proof.
  intros rail self self'.
  apply (update_shelf_frame self self'
           (Message.Build DISTANCE "x" (Some "000A") (Some 120))
           [] (Raise ZeroDivisionError)).
  vm_compute. reflexivity.
Defined.

(** What the decoder returns can always be dispatched: on a shelf whose
    rails all have a non-zero item length, [update_shelf] raises nothing
    on any message that [parse_message] produced, whatever the line. *)
Theorem decoded_dispatch_safe (line : string) (message : Message.t)
    (self : t) :
  Parser.parse_message line = Some message ->
  (forall k rail, rails self !! k = Some rail ->
                  RailWidget.item_length rail <> 0) ->
  exists tr self', update_shelf message self = (tr, self', Ok tt).
Proof.
  intros Hparse Hrails.
  destruct (parse_message_shape line message Hparse) as [Hdata _].
  destruct (Message.esl_id message) as [id|] eqn:Hid.
  - destruct (rails self !! id) as [rail|] eqn:Hrail.
    + destruct (Message.msg_type message) eqn:Hty.
      * destruct Hdata as [d Hd].
        rewrite (dispatch_distance_run _ _ _ _ _ Hty Hid Hd Hrail
                   (Hrails _ _ Hrail)).
        eauto.
      * rewrite (update_shelf_known _ _ _ _ Hid Hrail), Hty.
        rewrite (on_rail_status id true self rail Hrail). eauto.
      * rewrite (update_shelf_known _ _ _ _ Hid Hrail), Hty.
        rewrite (on_rail_status id false self rail Hrail). eauto.
      * rewrite (update_shelf_known _ _ _ _ Hid Hrail), Hty. eauto.
    + unfold update_shelf, bind, get.
      rewrite Hid, (is_rail_valid_false _ _ Hrail). cbn. eauto.
  - unfold update_shelf, bind, get. rewrite Hid. cbn. eauto.
Qed.

Lemma decoded_dispatch_safe_witness :
  exists tr self',
    update_shelf
      (Message.Build DISTANCE "#[ESL_ID:0a][DISTANCE:120]" (Some "000A")
                     (Some 120))
      (Build {[ "000A" := RailWidget.Build "000A" "mac" 500 100 40 10 10
                                           "img" None None ]})
    = (tr, self', Ok tt).
Proof.
  apply (decoded_dispatch_safe "#[ESL_ID:0a][DISTANCE:120]").
  - reflexivity.
  - intros k rail H. cbn [rails] in H.
    destruct (decide (k = "000A")) as [->|Hne].
    + rewrite lookup_singleton_eq in H. injection H as <-. discriminate.
    + rewrite lookup_singleton_ne in H by congruence. discriminate H.
Defined.

End ShelfDispatch.

(** ** Registry: what a constructed shelf holds *)

Section RegistryContents.

Import ShelfWidget.

Lemma rail_init_inv (e f l : Z) (id mac img : string) (r : RailWidget.t) :
  RailWidget.__init__ e f l id mac img = Ok r ->
  l <> 0 /\ exists tol,
    Py.int_quarter l = Ok tol
    /\ r = RailWidget.Build id mac e f l tol ((e - f) / l) img None None.
Proof.
  unfold RailWidget.__init__, Py.floordiv.
  destruct (Py.int_quarter l) as [tol|]; [|discriminate]. cbn [res_bind].
  destruct (Z.eqb_spec l 0); [discriminate|]. cbn [res_bind].
  unfold RailWidget._setup_ui. cbn [RailWidget.max_items].
  destruct (Qt.c_int ((e - f) / l)); [|discriminate]. cbn [res_bind].
  intros [= <-]. split; [assumption|]. exists tol. split; reflexivity.
Qed.

Lemma comprehension_nth {A B : Type} (f : A -> res B) (l : list A) :
  forall l' i b,
    Py.comprehension f l = Ok l' -> nth_error l' i = Some b ->
    exists a, nth_error l i = Some a /\ f a = Ok b.
Proof.
  induction l as [|x l IH]; intros l' i b H Hn; cbn in H.
  - injection H as <-. destruct i; discriminate.
  - destruct (f x) as [y|] eqn:Ex; [|discriminate]. cbn in H.
    destruct (Py.comprehension f l) as [ys|]; [|discriminate]. cbn in H.
    injection H as <-. destruct i as [|i].
    + injection Hn as <-. exists x. split; [reflexivity|exact Ex].
    + cbn in Hn. destruct (IH ys i b eq_refl Hn) as [a [Ha Hfa]].
      exists a. split; assumption.
Qed.

(** The loop keeps [registered] for all rails, given that its IDs sit at
    the positions it reads. *)
Lemma add_rails_registered (config : config) (esl_ids : list string)
    (offset : nat) (ids : list string) :
  Py.comprehension canonical (ShelfWidget.ids config) = Ok esl_ids ->
  forall (index : nat) (self self' : t) (tr : list effect),
    (forall j k, nth_error ids j = Some k ->
                 (index + j + offset < TOTAL_ELEMENTS)%nat
                 /\ nth_error esl_ids (index + j + offset) = Some k) ->
    (forall k rail, rails self !! k = Some rail -> registered config k rail) ->
    add_rails (rail_empty_distance config) (rail_full_distance config)
              (item_length config) (mac_addresses config) (image_path config)
              offset index ids self
    = (tr, self', Ok tt) ->
    forall k rail, rails self' !! k = Some rail -> registered config k rail.
Proof.
  intros Hcomp. induction ids as [|id ids IH];
    intros index self self' tr Hpos Hinv Hrun.
  - cbn in Hrun. injection Hrun as _ <-. exact Hinv.
  - apply add_rails_step in Hrun
      as [e [f [l [m [i [rail [He [Hf [Hl [Hm [Hi [Hr Hrun]]]]]]]]]]]].
    apply (IH (S index) _ _ _) with (3 := Hrun).
    + intros j k Hj. specialize (Hpos (S j) k Hj).
      replace (S index + j + offset)%nat with (index + S j + offset)%nat
        by lia.
      exact Hpos.
    + intros k rail0. cbn [set_rails rails].
      destruct (decide (id = k)) as [->|Hne].
      * rewrite lookup_insert_eq. intros [= <-].
        destruct (rail_init_inv _ _ _ _ _ _ _ Hr) as [Hl0 [tol [Htol ->]]].
        destruct (Hpos 0%nat k eq_refl) as [Hlt Hk].
        rewrite Nat.add_0_r in Hlt, Hk.
        destruct (comprehension_nth _ _ _ _ _ Hcomp Hk) as [s [Hs Hcan]].
        unfold registered. cbn.
        do 6 (split; [auto|]).
        exists (index + offset)%nat, s. unfold built_from. cbn.
        repeat split; assumption.
      * rewrite lookup_insert_ne by exact Hne. apply Hinv.
Qed.

Lemma nth_error_take_some {A : Type} (n : nat) (l : list A) (j : nat) (a : A) :
  nth_error (take n l) j = Some a -> (j < n)%nat /\ nth_error l j = Some a.
Proof.
  revert l j. induction n as [|n IH]; intros l j H.
  - destruct j; discriminate.
  - destruct l as [|x l]; [destruct j; discriminate|].
    destruct j as [|j]; cbn in *.
    + split; [lia|exact H].
    + destruct (IH l j H). split; [lia|assumption].
Qed.

Lemma nth_error_drop {A : Type} (n : nat) (l : list A) (j : nat) :
  nth_error (drop n l) j = nth_error l (j + n).
Proof.
  revert l. induction n as [|n IH]; intros l.
  - rewrite Nat.add_0_r. reflexivity.
  - destruct l as [|x l]; [destruct j; reflexivity|].
    cbn [drop]. rewrite IH.
    replace (j + S n)%nat with (S (j + n)) by lia. reflexivity.
Qed.

(** Whenever the construction of the shelf succeeds, every rail of the
    registry sits under its own canonical ID, stems from one position
    below eleven of the configuration, the same in all six sequences, has
    a non-zero item length and displays nothing yet. *)
Theorem registry_rails (config : config) (tr : list effect) (self : t) :
  __init__ config = (tr, Ok self) ->
  forall k rail, rails self !! k = Some rail -> registered config k rail.
Proof.
  unfold __init__.
  destruct (init_body config {| rails := ∅ |}) as [[tr0 s0] r0] eqn:Hrun.
  destruct r0 as [[]|]; [|discriminate]. intros [= _ <-].
  unfold init_body in Hrun. unfold bind at 1 in Hrun.
  destruct ((if negb (length (ids config) =? TOTAL_ELEMENTS)%nat
             then log WARNING "Expected 11 ESL IDs, got {len(esl_ids)}."
             else ret tt) {| rails := ∅ |}) as [[trw sw] rw] eqn:Hw.
  assert (Hsw : sw = {| rails := ∅ |} /\ rw = Ok tt).
  { destruct (negb _) in Hw; injection Hw as _ <- <-; split; reflexivity. }
  destruct Hsw as [-> ->].
  unfold bind at 1, lift in Hrun.
  destruct (Py.comprehension canonical (ids config)) as [esl_ids|] eqn:Hcomp;
    [|discriminate].
  unfold setup_ui in Hrun. unfold bind at 1, modify in Hrun.
  unfold bind at 1 in Hrun.
  destruct (add_rails _ _ _ _ _ 0 0 (take TOP_ROW_ELEMENTS esl_ids) _)
    as [[tr1 s1] r1] eqn:Htop.
  destruct r1 as [[]|]; [|discriminate].
  destruct (add_rails _ _ _ _ _ TOP_ROW_ELEMENTS 0 _ s1)
    as [[tr2 s2] r2] eqn:Hbot.
  destruct r2 as [[]|]; [|discriminate].
  injection Hrun as _ <-.
  apply (add_rails_registered config esl_ids TOP_ROW_ELEMENTS
           (drop TOP_ROW_ELEMENTS (take TOTAL_ELEMENTS esl_ids)) Hcomp
           0%nat s1 s2 tr2); [| |exact Hbot].
  - intros j k Hj. rewrite nth_error_drop in Hj.
    apply nth_error_take_some in Hj as [Hlt Hk].
    cbn [Nat.add]. split; [exact Hlt|exact Hk].
  - apply (add_rails_registered config esl_ids 0
             (take TOP_ROW_ELEMENTS esl_ids) Hcomp
             0%nat (set_rails (fun _ => ∅) {| rails := ∅ |}) s1 tr1);
      [| |exact Htop].
    + intros j k Hj. apply nth_error_take_some in Hj as [Hlt Hk].
      cbn [Nat.add]. rewrite Nat.add_0_r.
      split; [|exact Hk].
      unfold TOTAL_ELEMENTS, TOP_ROW_ELEMENTS, BOTTOM_ROW_ELEMENTS in *. lia.
    + intros k rail. cbn [set_rails rails].
      rewrite lookup_empty. discriminate.
Qed.

Lemma registry_rails_witness :
  exists tr self rail,
    __init__ (Config ["0A"] ["m1"; "m2"] [500; 600; 700] [100] [40; 0] ["img"])
    = (tr, Ok self)
    /\ rails self !! "000A" = Some rail
    /\ registered
         (Config ["0A"] ["m1"; "m2"] [500; 600; 700] [100] [40; 0] ["img"])
         "000A" rail.
Proof.
  eexists. eexists. eexists.
  split; [vm_compute; reflexivity|].
  split; [vm_compute; reflexivity|].
  eapply registry_rails; vm_compute; reflexivity.
Defined.

(** A loop of [setup_ui] leaves alone the keys it does not register, and
    under a key it registers it leaves the rail of the last position that
    has this key. *)
Lemma add_rails_last (config : config) (offset : nat) (ids : list string) :
  forall (index : nat) (self self' : t) (tr : list effect),
    add_rails (rail_empty_distance config) (rail_full_distance config)
              (item_length config) (mac_addresses config) (image_path config)
              offset index ids self
    = (tr, self', Ok tt) ->
    forall k,
      ((forall j, nth_error ids j <> Some k) ->
       rails self' !! k = rails self !! k)
      /\ (forall j, nth_error ids j = Some k ->
                    (forall j', (j < j')%nat -> nth_error ids j' <> Some k) ->
                    exists rail, rails self' !! k = Some rail
                                 /\ built_from config (index + j + offset) rail).
Proof.
  induction ids as [|id ids IH]; intros index self self' tr Hrun k.
  - cbn in Hrun. injection Hrun as _ <-. split; [reflexivity|].
    intros j Hj. destruct j; discriminate.
  - apply add_rails_step in Hrun
      as [e [f [l [m [i [rail [He [Hf [Hl [Hm [Hi [Hr Hrun]]]]]]]]]]]].
    destruct (IH _ _ _ _ Hrun k) as [Hkeep Hlast].
    split.
    + intros Hno. rewrite Hkeep by (intros j; exact (Hno (S j))).
      cbn [set_rails rails]. apply lookup_insert_ne.
      intros ->. exact (Hno 0%nat eq_refl).
    + intros [|j] Hj Hlater.
      * injection Hj as ->.
        rewrite Hkeep
          by (intros j; apply (Hlater (S j)); lia).
        cbn [set_rails rails]. rewrite lookup_insert_eq.
        exists rail. split; [reflexivity|].
        destruct (rail_init_inv _ _ _ _ _ _ _ Hr) as [_ [tol [_ ->]]].
        rewrite Nat.add_0_r. unfold built_from. cbn.
        repeat split; assumption.
      * destruct (Hlast j Hj) as [rail' [Hlook Hbuilt]].
        { intros j' Hlt. apply (Hlater (S j')). lia. }
        exists rail'. split; [exact Hlook|].
        replace (index + S j + offset)%nat with (S index + j + offset)%nat
          by lia.
        exact Hbuilt.
Qed.

(** Last registered wins.  When the construction succeeds and position
    [i], below eleven, is the last one whose ID has the canonical form
    [k], the rail under [k] is built from the entries at position [i];
    earlier positions with the same canonical ID are overwritten. *)
Theorem registry_last_wins (config : config) (tr : list effect) (self : t)
    (esl_ids : list string) (i : nat) (k : string) :
  __init__ config = (tr, Ok self) ->
  Py.comprehension canonical (ids config) = Ok esl_ids ->
  (i < TOTAL_ELEMENTS)%nat ->
  nth_error esl_ids i = Some k ->
  (forall j, (i < j < TOTAL_ELEMENTS)%nat -> nth_error esl_ids j <> Some k) ->
  exists rail, rails self !! k = Some rail /\ built_from config i rail.
Proof.
  unfold __init__.
  destruct (init_body config {| rails := ∅ |}) as [[tr0 s0] r0] eqn:Hrun.
  destruct r0 as [[]|]; [|discriminate]. intros [= _ <-].
  intros Hcomp Hi Hk Hlater.
  unfold init_body in Hrun. unfold bind at 1 in Hrun.
  destruct ((if negb (length (ids config) =? TOTAL_ELEMENTS)%nat
             then log WARNING "Expected 11 ESL IDs, got {len(esl_ids)}."
             else ret tt) {| rails := ∅ |}) as [[trw sw] rw] eqn:Hw.
  assert (Hsw : sw = {| rails := ∅ |} /\ rw = Ok tt).
  { destruct (negb _) in Hw; injection Hw as _ <- <-; split; reflexivity. }
  destruct Hsw as [-> ->].
  unfold bind at 1, lift in Hrun. rewrite Hcomp in Hrun.
  unfold setup_ui in Hrun. unfold bind at 1, modify in Hrun.
  unfold bind at 1 in Hrun.
  destruct (add_rails _ _ _ _ _ 0 0 (take TOP_ROW_ELEMENTS esl_ids) _)
    as [[tr1 s1] r1] eqn:Htop.
  destruct r1 as [[]|]; [|discriminate].
  destruct (add_rails _ _ _ _ _ TOP_ROW_ELEMENTS 0 _ s1)
    as [[tr2 s2] r2] eqn:Hbot.
  destruct r2 as [[]|]; [|discriminate].
  injection Hrun as _ <-.
  destruct (add_rails_last _ _ _ _ _ _ _ Htop k) as [_ Htop_last].
  destruct (add_rails_last _ _ _ _ _ _ _ Hbot k) as [Hbot_keep Hbot_last].
  change TOTAL_ELEMENTS with 11%nat in *.
  change TOP_ROW_ELEMENTS with 7%nat in *.
  assert (Htake : forall n j, (j < n)%nat ->
            nth_error (take n esl_ids) j = nth_error esl_ids j).
  { intros n j Hlt. rewrite nth_error_firstn.
    destruct (Nat.ltb_spec j n); [reflexivity|lia]. }
  assert (Htake_none : forall n j, (n <= j)%nat ->
            nth_error (take n esl_ids) j = None).
  { intros n j Hle. rewrite nth_error_firstn.
    destruct (Nat.ltb_spec j n); [lia|reflexivity]. }
  destruct (Nat.lt_ge_cases i 7) as [Htoprow|Hbotrow].
  - rewrite Hbot_keep.
    + destruct (Htop_last i) as [rail [Hlook Hbuilt]].
      * rewrite Htake by exact Htoprow. exact Hk.
      * intros j' Hlt.
        destruct (Nat.lt_ge_cases j' 7) as [H7|H7].
        -- rewrite Htake by exact H7. apply Hlater. lia.
        -- rewrite Htake_none by exact H7. discriminate.
      * exists rail. split; [exact Hlook|].
        replace (0 + i + 0)%nat with i in Hbuilt by lia. exact Hbuilt.
    + intros j. rewrite nth_error_drop.
      destruct (Nat.lt_ge_cases (j + 7) 11) as [H11|H11].
      * rewrite Htake by exact H11. apply Hlater. lia.
      * rewrite Htake_none by exact H11. discriminate.
  - destruct (Hbot_last (i - 7)%nat) as [rail [Hlook Hbuilt]].
    + rewrite nth_error_drop.
      replace (i - 7 + 7)%nat with i by lia.
      rewrite Htake by exact Hi. exact Hk.
    + intros j' Hlt. rewrite nth_error_drop.
      destruct (Nat.lt_ge_cases (j' + 7) 11) as [H11|H11].
      * rewrite Htake by exact H11. apply Hlater. lia.
      * rewrite Htake_none by exact H11. discriminate.
    + exists rail. split; [exact Hlook|].
      replace (0 + (i - 7) + 7)%nat with i in Hbuilt by lia. exact Hbuilt.
Qed.

Lemma registry_last_wins_witness :
  exists tr self rail,
    __init__ (Config ["0A"; "0b"; "a"] ["m0"; "m1"; "m2"] [500; 600; 700]
                     [100; 100; 100] [40; 50; 60] ["i0"; "i1"; "i2"])
    = (tr, Ok self)
    /\ rails self !! "000A" = Some rail
    /\ built_from
         (Config ["0A"; "0b"; "a"] ["m0"; "m1"; "m2"] [500; 600; 700]
                 [100; 100; 100] [40; 50; 60] ["i0"; "i1"; "i2"])
         2 rail.
Proof.
  eexists. eexists.
  destruct (registry_last_wins
              (Config ["0A"; "0b"; "a"] ["m0"; "m1"; "m2"] [500; 600; 700]
                      [100; 100; 100] [40; 50; 60] ["i0"; "i1"; "i2"])
              _ _ ["000A"; "000B"; "000A"] 2 "000A"
              ltac:(vm_compute; reflexivity) eq_refl
              ltac:(vm_compute; lia) eq_refl)
    as [rail [Hlook Hbuilt]].
  - intros j Hj. destruct j as [|[|[|j]]]; [lia|lia|lia|].
    destruct j; discriminate.
  - exists rail. split; [reflexivity|]. split; [exact Hlook|exact Hbuilt].
Defined.

End RegistryContents.

(** ** Serial link: reconfiguration, defaults, sending *)

Section SerialLink.

Import SerialHandler.

(** Reconfiguration never touches a live link.  On an open port
    [update_serial_config] is the closing of the port, with its closed
    notification, followed by [update_serial_config] on the closed port:
    every setting is written, and every failure happens, with the link
    already closed. *)
Theorem reconfigure_closes_first (os_opens : string -> bool)
    (new_config : config) (serial : t) :
  isOpen serial = true ->
  update_serial_config os_opens new_config serial
  = match update_serial_config os_opens new_config (setOpen false serial) with
    | (tr, serial', r) =>
        ([Log DEBUG "Closing {self.serial.portName()}.";
          Emit (serial_port_closed (portName serial ++ " closed."));
          Log DEBUG "{self.serial.portName()} closed."] ++ tr,
         serial', r)%list
    end.
Proof.
  intros Ho.
  rewrite (update_serial_config_open _ _ _ Ho).
  rewrite (update_serial_config_closed _ _ (setOpen false serial) eq_refl).
  reflexivity.
Qed.

Lemma reconfigure_closes_first_witness :
  update_serial_config (fun _ => true)
    (Config (Some "COM4") None None None None None)
    (setOpen true (setPortName "COM3" QSerialPort))
  = match update_serial_config (fun _ => true)
            (Config (Some "COM4") None None None None None)
            (setOpen false (setOpen true (setPortName "COM3" QSerialPort)))
    with
    | (tr, serial', r) =>
        ([Log DEBUG "Closing {self.serial.portName()}.";
          Emit (serial_port_closed ("COM3" ++ " closed."));
          Log DEBUG "{self.serial.portName()} closed."] ++ tr,
         serial', r)%list
    end.
Proof.
  apply (reconfigure_closes_first (fun _ => true)
           (Config (Some "COM4") None None None None None)
           (setOpen true (setPortName "COM3" QSerialPort))).
  reflexivity.
Defined.

(** A reconfiguration without a port name costs the link: an open port is
    closed first and not reopened, and it keeps the settings it had. *)
Theorem reconfigure_without_port_closes (os_opens : string -> bool)
    (new_config : config) (serial : t) :
  port new_config = None \/ port new_config = Some "" ->
  exists tr,
    update_serial_config os_opens new_config serial
    = (tr, setOpen false serial, Ok tt)
    /\ settings_of (setOpen false serial) = settings_of serial
    /\ written (setOpen false serial) = written serial.
Proof.
  intros Hport.
  destruct (isOpen serial) eqn:Ho.
  - rewrite (update_serial_config_open _ _ _ Ho).
    unfold except_ValueError, bind.
    rewrite (configure_serial_missing_port _ _ Hport).
    eexists. split; [reflexivity|]. split; reflexivity.
  - rewrite (update_serial_config_closed _ _ _ Ho).
    unfold except_ValueError, bind.
    rewrite (configure_serial_missing_port _ _ Hport).
    assert (Hs : setOpen false serial = serial)
      by (destruct serial; cbn in Ho; subst; reflexivity).
    rewrite Hs. eexists. split; [reflexivity|]. split; reflexivity.
Qed.

Lemma reconfigure_without_port_closes_witness :
  exists tr,
    update_serial_config (fun _ => true)
      (Config (Some "") (Some 9600) None None None None)
      (setOpen true (setPortName "COM3" QSerialPort))
    = (tr, setOpen false (setOpen true (setPortName "COM3" QSerialPort)),
       Ok tt)
    /\ settings_of (setOpen false (setOpen true (setPortName "COM3" QSerialPort)))
       = settings_of (setOpen true (setPortName "COM3" QSerialPort))
    /\ written (setOpen false (setOpen true (setPortName "COM3" QSerialPort)))
       = written (setOpen true (setPortName "COM3" QSerialPort)).
Proof.
  apply (reconfigure_without_port_closes (fun _ => true)
           (Config (Some "") (Some 9600) None None None None)).
  right. reflexivity.
Defined.

(** The defaults.  A configuration that names the port and nothing else
    sets 115200 baud, eight data bits, no parity, one stop bit and
    hardware flow control, logs debug lines only, and touches neither the
    open flag nor the data sent.  The port then reports the name it was
    given, without a leading [/dev/]. *)
Theorem configure_serial_defaults (name : string) (serial : t) :
  name <> "" ->
  exists tr serial',
    configure_serial (Config (Some name) None None None None None) serial
    = (tr, serial', Ok tt)
    /\ only_debug tr = true
    /\ systemLocation serial' = Qt.portNameToSystemLocation name
    /\ portName serial' = short_name name
    /\ (baudRate serial', dataBits serial', parity serial', stopBits serial',
        flowControl serial')
       = (115200, Data8, NoParity, OneStop, HardwareControl)
    /\ isOpen serial' = isOpen serial
    /\ written serial' = written serial.
Proof.
  intros Hne. unfold configure_serial, except_ValueError, bind. cbn [log].
  cbn [port]. rewrite (set_port_name_ok _ _ Hne). cbv beta iota.
  eexists. eexists. split; [reflexivity|].
  split; [reflexivity|]. split; [reflexivity|].
  split; [apply (portName_setPortName name serial)|].
  repeat split.
Qed.

Lemma configure_serial_defaults_witness :
  exists tr serial',
    configure_serial (Config (Some "/dev/ttyUSB0") None None None None None)
                     QSerialPort
    = (tr, serial', Ok tt)
    /\ only_debug tr = true
    /\ systemLocation serial' = "/dev/ttyUSB0"
    /\ portName serial' = "ttyUSB0"
    /\ (baudRate serial', dataBits serial', parity serial', stopBits serial',
        flowControl serial')
       = (115200, Data8, NoParity, OneStop, HardwareControl)
    /\ isOpen serial' = false
    /\ written serial' = [].
Proof.
  apply (configure_serial_defaults "/dev/ttyUSB0" QSerialPort). discriminate.
Defined.

(** What an attempt to open the port leaves behind.  On an open port it
    only warns.  On a closed port the operating system decides: when it
    grants the device the port is open and [serial_port_opened] is
    emitted with the short name; when it refuses, the port stays as it
    was, [handle_error] logs the error of the port and emits
    [serial_port_error], and [open_serial] logs the failure once more.
    Nothing is raised in any case, and no setting changes. *)
Theorem open_serial_outcome (os_opens : string -> bool) (serial : t) :
  (isOpen serial = true ->
     open_serial os_opens serial
     = ([Log WARNING "Serial port {self.serial.portName()} is already open."],
        serial, Ok tt))
  /\ (isOpen serial = false -> os_opens (systemLocation serial) = true ->
      open_serial os_opens serial
      = ([Log DEBUG "Serial port {self.serial.portName()} opened.";
          Emit (serial_port_opened
                  ("Serial port " ++ portName serial ++ " opened."))],
         setOpen true serial, Ok tt))
  /\ (isOpen serial = false -> os_opens (systemLocation serial) = false ->
      open_serial os_opens serial
      = ([Log ERROR "Serial port error: {self.serial.errorString()}";
          Emit (serial_port_error
                  "Serial port error: {self.serial.errorString()}");
          Log ERROR "Failed to open serial port {self.serial.portName()}: {self.serial.errorString()}"],
         serial, Ok tt))
  /\ forall tr serial' r,
       open_serial os_opens serial = (tr, serial', r) ->
       r = Ok tt
       /\ settings_of serial' = settings_of serial
       /\ written serial' = written serial
       /\ isOpen serial'
          = (isOpen serial || os_opens (systemLocation serial)).
Proof.
  split; [|split; [|split]].
  - intros Ho. unfold open_serial, bind, get. rewrite Ho. reflexivity.
  - intros Hc Hos. rewrite (open_serial_closed _ _ Hc), Hos. reflexivity.
  - intros Hc Hos. rewrite (open_serial_closed _ _ Hc), Hos. reflexivity.
  - intros tr serial' r.
    destruct (isOpen serial) eqn:Ho.
    + unfold open_serial, bind, get. rewrite Ho. cbn [negb log].
      intros [= <- <- <-]. rewrite Ho. repeat split.
    + rewrite (open_serial_closed _ _ Ho).
      destruct (os_opens (systemLocation serial));
        intros [= <- <- <-]; repeat split; cbn; exact Ho.
Qed.

Lemma open_serial_outcome_witness :
  open_serial (fun _ => false) (setPortName "/dev/ttyUSB0" QSerialPort)
  = ([Log ERROR "Serial port error: {self.serial.errorString()}";
      Emit (serial_port_error
              "Serial port error: {self.serial.errorString()}");
      Log ERROR "Failed to open serial port {self.serial.portName()}: {self.serial.errorString()}"],
     setPortName "/dev/ttyUSB0" QSerialPort, Ok tt)
  /\ open_serial (fun _ => true) (setPortName "/dev/ttyUSB0" QSerialPort)
     = ([Log DEBUG "Serial port {self.serial.portName()} opened.";
         Emit (serial_port_opened "Serial port ttyUSB0 opened.")],
        setOpen true (setPortName "/dev/ttyUSB0" QSerialPort), Ok tt).
Proof.
  split.
  - apply (proj1 (proj2 (proj2 (open_serial_outcome (fun _ => false)
                    (setPortName "/dev/ttyUSB0" QSerialPort)))));
      reflexivity.
  - apply (proj1 (proj2 (open_serial_outcome (fun _ => true)
                    (setPortName "/dev/ttyUSB0" QSerialPort))));
      reflexivity.
Defined.

End SerialLink.

(** ** The decoder behind the serial reader and the command echo *)

Section DecoderInputs.

Import Parser.

Lemma rstrip_with_idempotent (sp : ascii -> bool) (s : string) :
  Py.rstrip_with sp (Py.rstrip_with sp s) = Py.rstrip_with sp s.
Proof.
  induction s as [|c s IH]; [reflexivity|].
  cbn [Py.rstrip_with].
  destruct (Py.rstrip_with sp s) as [|d r] eqn:E.
  - destruct (sp c) eqn:Hc; [reflexivity|].
    cbn [Py.rstrip_with]. rewrite Hc. reflexivity.
  - change (Py.rstrip_with sp (String c (String d r)))
      with (match Py.rstrip_with sp (String d r) with
            | EmptyString =>
                if sp c then EmptyString else String c EmptyString
            | r' => String c r'
            end).
    rewrite IH. reflexivity.
Qed.

(** The head of a string survives [rstrip] unless it is stripped
    itself. *)
Lemma rstrip_with_head (sp : ascii -> bool) (c : ascii) (s : string) :
  sp c = false ->
  exists r, Py.rstrip_with sp (String c s) = String c r.
Proof.
  intros Hc. cbn [Py.rstrip_with].
  destruct (Py.rstrip_with sp s); rewrite ?Hc; eauto.
Qed.

Lemma lstrip_with_head (sp : ascii -> bool) (s : string) :
  Py.lstrip_with sp s = EmptyString
  \/ exists c r, Py.lstrip_with sp s = String c r /\ sp c = false.
Proof.
  induction s as [|c s IH]; [left; reflexivity|].
  cbn [Py.lstrip_with]. destruct (sp c) eqn:Hc; [exact IH|].
  right. eauto.
Qed.

Lemma strip_idempotent (s : string) : Py.strip (Py.strip s) = Py.strip s.
Proof.
  unfold Py.strip.
  destruct (lstrip_with_head Py.isspace s) as [->|[c [r [-> Hc]]]];
    [reflexivity|].
  destruct (rstrip_with_head Py.isspace c r Hc) as [r' Hr].
  rewrite Hr. cbn [Py.lstrip_with]. rewrite Hc, <- Hr.
  apply rstrip_with_idempotent.
Qed.

Lemma strip_head (c : ascii) (s : string) :
  Py.isspace c = false ->
  exists r, Py.strip (String c s) = String c r.
Proof.
  intros Hc. unfold Py.strip. cbn [Py.lstrip_with]. rewrite Hc.
  apply rstrip_with_head, Hc.
Qed.

(** Stripping twice is stripping once, so the decoder does not care that
    [SerialHandler.read_data] has stripped the line before: on a stripped
    line it returns what it returns on the line as received when that
    carries the sentinel, and otherwise an [OTHER] message whose content
    is the stripped line. *)
Theorem decode_after_strip (line : string) :
  Py.strip (Py.strip line) = Py.strip line
  /\ (sentinel line = true ->
      parse_message (Py.strip line) = parse_message line)
  /\ (sentinel line = false ->
      parse_message (Py.strip line) = Some (Unclassified (Py.strip line))).
Proof.
  split; [apply strip_idempotent|]. split; intros Hs.
  - rewrite (parse_message_sentinel line Hs).
    rewrite parse_message_sentinel
      by (unfold sentinel in *; rewrite strip_idempotent; exact Hs).
    rewrite strip_idempotent. reflexivity.
  - apply parse_message_no_sentinel.
    unfold sentinel in *. rewrite strip_idempotent. exact Hs.
Qed.

Lemma decode_after_strip_witness :
  parse_message (Py.strip "  #[ESL_ID:0A][BATTERY:87]  ")
  = parse_message "  #[ESL_ID:0A][BATTERY:87]  ".
Proof.
  apply (proj1 (proj2 (decode_after_strip "  #[ESL_ID:0A][BATTERY:87]  "))).
  reflexivity.
Defined.

(** The commands of the rail buttons are never taken for telemetry.
    Whatever the ID and the MAC address of the rail, a click on the
    measure button or on the item count emits one [send_command] and
    leaves the rail as it is.  [SerialHandler.message_sent] feeds every
    command sent back into the decoder: either command decodes to an
    [OTHER] message with the command as its content, on which
    [update_shelf] does nothing at all. *)
Theorem rail_commands_not_telemetry (rail : RailWidget.t) :
  let measure := "esl_c force_measure " ++ RailWidget.esl_id rail in
  let connect := "esl_c acl connect_addr 1 " ++ RailWidget.mac_address rail in
  RailWidget.on_measure_button_clicked rail
  = ([Emit (send_command measure)], rail, Ok tt)
  /\ RailWidget.on_item_count_label_clicked rail
     = ([Emit (send_command connect)], rail, Ok tt)
  /\ parse_message measure = Some (Unclassified measure)
  /\ parse_message connect = Some (Unclassified connect)
  /\ forall shelf,
       ShelfWidget.update_shelf (Unclassified measure) shelf
       = ([], shelf, Ok tt)
       /\ ShelfWidget.update_shelf (Unclassified connect) shelf
          = ([], shelf, Ok tt).
Proof.
  intros measure connect.
  assert (Hdecode : forall s,
            parse_message (String "e" s) = Some (Unclassified (String "e" s))).
  { intros s. apply parse_message_no_sentinel. unfold sentinel.
    destruct (strip_head "e" s eq_refl) as [r' ->]. reflexivity. }
  split; [reflexivity|]. split; [reflexivity|].
  split; [|split].
  - subst measure. rewrite append_cons. apply Hdecode.
  - subst connect. rewrite append_cons. apply Hdecode.
  - intros shelf. split; reflexivity.
Qed.

End DecoderInputs.
